(** * DCampus course recommendation engine: a shallow embedding

    This development embeds [ml_models/course_recommendation/model.py]
    (class [CourseRecommendationSystem]) and proves properties of its
    hybrid scoring pipeline.

    Conventions of the embedding
    - pandas data frames are lists of records, one record per row, in row
      order;
    - Python floats are exact rationals ([Q]); a missing value (NaN) of a
      nullable column is [None];
    - Python exceptions are the [Raise] case of [result];
    - the fitted TF-IDF vectorizer and scikit-learn's [cosine_similarity]
      are library code: the engine takes what they return as data (the
      content index of the model state) or as a parameter (the pairwise
      cosine of two rating vectors).  Module [ContentSimilarity] gives the
      cosine matrix itself, in binary64 arithmetic. *)

From Stdlib Require Import List String Ascii Bool ZArith QArith Qround.
From Stdlib Require Import Permutation Sorted Lia Psatz.
From Stdlib Require Floats.
Import ListNotations.

Local Open Scope string_scope.
Local Open Scope Q_scope.

(** ** Exceptions and results *)

Inductive exn : Type :=
| ValueError (msg : string)
| IndexError
| KeyError (key : string).

Inductive result (A : Type) : Type :=
| Ok (a : A)
| Raise (e : exn).

Arguments Ok {A} a.
Arguments Raise {A} e.

Definition bind {A B : Type} (r : result A) (k : A -> result B) : result B :=
  match r with
  | Ok a => k a
  | Raise e => Raise e
  end.

Notation "'do' x <- r ; k" := (bind r (fun x => k))
  (at level 10, x name, r at level 100, k at level 200).

(** ** Tables *)

(** A row of [courses_df] once [train] has run: [avg_rating] is the column
    that [_calculate_course_popularity] leaves behind ([None] is NaN). *)
Record Course : Type := mkCourse {
  course_id : string;
  course_code : string;
  course_name : string;
  department : string;
  description : string;
  prerequisites : list string;
  level : Z;
  difficulty : string;
  credits : Z;
  keywords : list string;
  avg_rating : option Q;
  popularity_score : Q
}.

Record Student : Type := mkStudent {
  student_id : string;
  major : string;
  s_department : string;
  year_of_study : Z;
  gpa : Q;
  topic_interests : list string
}.

(** A row of [course_history_df]; [student_rating] is nullable. *)
Record HistoryRecord : Type := mkHistory {
  h_student_id : string;
  h_course_id : string;
  term : string;
  grade_letter : string;
  grade_value : Q;
  student_rating : option Q
}.

(** ** Small list and number helpers *)

Definition mem (x : string) (l : list string) : bool :=
  existsb (String.eqb x) l.

Fixpoint unique (l : list string) : list string :=
  match l with
  | [] => []
  | x :: t => x :: filter (fun y => negb (String.eqb x y)) (unique t)
  end.

Fixpoint insert_sorted (x : string) (l : list string) : list string :=
  match l with
  | [] => [x]
  | y :: t => if String.leb x y then x :: y :: t else y :: insert_sorted x t
  end.

Definition sort_ids (l : list string) : list string :=
  fold_right insert_sorted [] l.

Definition Qsum (l : list Q) : Q := fold_left Qplus l 0.

Definition mean (l : list Q) : Q := Qsum l / inject_Z (Z.of_nat (List.length l)).

Definition Qltb (x y : Q) : bool := negb (Qle_bool y x).

(** Python slice [l[:k]], also for a negative [k]. *)
Definition take {A : Type} (k : Z) (l : list A) : list A :=
  if (k <? 0)%Z then firstn (List.length l - Z.to_nat (- k)) l
  else firstn (Z.to_nat k) l.

(** [sorted(l, key=lambda x: x[1], reverse=True)]: stable, descending. *)
Fixpoint insert_desc {A : Type} (x : A * Q) (l : list (A * Q)) : list (A * Q) :=
  match l with
  | [] => [x]
  | y :: t => if Qltb (snd x) (snd y) then y :: insert_desc x t else x :: y :: t
  end.

Definition sorted_desc {A : Type} (l : list (A * Q)) : list (A * Q) :=
  fold_right insert_desc [] l.

(** Built-in [round] to an integer: ties go to the even neighbour. *)
Definition round (x : Q) : Z :=
  let f := Qfloor x in
  let d := x - inject_Z f in
  if Qltb d (1 # 2) then f
  else if Qltb (1 # 2) d then (f + 1)%Z
  else if Z.even f then f else (f + 1)%Z.

(** ** The student x course interaction matrix
    ([_create_student_course_matrix]) *)

Definition max_grade : Q := 4.

Definition implied_rating (r : HistoryRecord) : Q :=
  grade_value r / max_grade * 5.

Definition interaction_value (r : HistoryRecord) : Q :=
  match student_rating r with
  | Some rating => rating
  | None => implied_rating r
  end.

(** The rows of the history that [pivot_table] groups into one cell. *)
Definition cell_records (history : list HistoryRecord) (sid cid : string)
  : list HistoryRecord :=
  filter (fun r => String.eqb (h_student_id r) sid
                   && String.eqb (h_course_id r) cid) history.

(** [pivot_table] aggregates a group with the mean and fills an empty
    group with [fill_value=0]. *)
Definition pivot_cell (history : list HistoryRecord) (sid cid : string) : Q :=
  match cell_records history sid cid with
  | [] => 0
  | rs => mean (map interaction_value rs)
  end.

(** A pandas frame whose rows and columns carry labels: the labels in
    order, and the value at a pair of labels.  Every row has one entry per
    column, as in any frame. *)
Record Matrix : Type := mkMatrix {
  index : list string;
  columns : list string;
  cell : string -> string -> Q
}.

Definition _create_student_course_matrix (history : list HistoryRecord) : Matrix :=
  mkMatrix (sort_ids (unique (map h_student_id history)))
           (sort_ids (unique (map h_course_id history)))
           (pivot_cell history).

(** [matrix.loc[sid]] as the vector of the row's values. *)
Definition loc (m : Matrix) (sid : string) : list Q :=
  map (cell m sid) (columns m).

(** ** Course popularity ([_calculate_course_popularity]) *)

(** A row of the courses table as [load_data] reads it. *)
Record CourseRow : Type := mkCourseRow {
  row_course_id : string;
  row_course_code : string;
  row_course_name : string;
  row_department : string;
  row_description : string;
  row_prerequisites : list string;
  row_level : Z;
  row_difficulty : string;
  row_credits : Z;
  row_keywords : list string
}.

Definition enrollment_count (history : list HistoryRecord) (cid : string) : Q :=
  inject_Z (Z.of_nat (List.length
    (filter (fun r => String.eqb (h_course_id r) cid) history))).

(** The ratings of a course that are not null. *)
Fixpoint course_ratings (history : list HistoryRecord) (cid : string) : list Q :=
  match history with
  | [] => []
  | r :: t =>
      match student_rating r with
      | Some x => if String.eqb (h_course_id r) cid
                  then x :: course_ratings t cid else course_ratings t cid
      | None => course_ratings t cid
      end
  end.

(** The [avg_rating] column after the left merge: NaN for a course that no
    record rates. *)
Definition merged_avg_rating (history : list HistoryRecord) (cid : string)
  : option Q :=
  match course_ratings history cid with
  | [] => None
  | rs => Some (mean rs)
  end.

Definition fillna (v : option Q) (d : Q) : option Q :=
  match v with
  | Some x => Some x
  | None => Some d
  end.

(** The column [avg_rating] that the method leaves in [courses_df].  When
    the table read from disk already has a column of that name, the merge
    renames both copies and the method writes the constant 0. *)
Definition avg_rating_column (csv_has_avg_rating : bool)
    (history : list HistoryRecord) (cid : string) : option Q :=
  if csv_has_avg_rating then Some 0
  else fillna (merged_avg_rating history cid) 0.

Definition Qmax (x y : Q) : Q := if Qltb x y then y else x.

Definition enrollment_max (rows : list CourseRow) (history : list HistoryRecord) : Q :=
  Qmax (fold_right (fun r acc => Qmax (enrollment_count history (row_course_id r)) acc)
                   0 rows) 1.

Definition rating_max : Q := 5.

Definition or_zero (v : option Q) : Q :=
  match v with
  | Some x => x
  | None => 0
  end.

Definition _calculate_course_popularity (csv_has_avg_rating : bool)
    (rows : list CourseRow) (history : list HistoryRecord) : list Course :=
  let emax := enrollment_max rows history in
  map (fun r =>
         let avg := avg_rating_column csv_has_avg_rating history (row_course_id r) in
         mkCourse (row_course_id r) (row_course_code r) (row_course_name r)
                  (row_department r) (row_description r) (row_prerequisites r)
                  (row_level r) (row_difficulty r) (row_credits r) (row_keywords r)
                  avg
                  ((7 # 10) * enrollment_count history (row_course_id r) / emax
                   + (3 # 10) * or_zero avg / rating_max))
      rows.

(** ** The model state *)

(** The state of the recommender once [train] has run: the three tables,
    the content index and the interaction matrix.  The similarity matrix is
    optional because [recommend_courses] and [evaluate] test it against
    [None].  What the fitted vectorizer and the content matrix give the engine:
    [query_similarity q] is
    [cosine_similarity(vectorizer.transform([q]), course_content_matrix)[0]],
    one score per course row. *)
Record Model : Type := mkModel {
  courses_df : list Course;
  students_df : list Student;
  course_history_df : list HistoryRecord;
  query_similarity : string -> list Q;
  course_similarity_matrix : option (list (list Q));
  student_course_matrix : Matrix
}.

(** The text that [_create_course_content_features] builds per course. *)
Definition content_text (r : CourseRow) : string :=
  row_course_name r ++ " " ++ row_department r ++ " " ++ row_description r ++ " "
  ++ String.concat " " (row_keywords r) ++ " " ++ row_difficulty r ++ " level course".

(** ** Dictionaries that keep insertion order *)

Fixpoint dict_get (d : list (string * Q)) (k : string) : option Q :=
  match d with
  | [] => None
  | (k', v) :: t => if String.eqb k' k then Some v else dict_get t k
  end.

(** [d[k] = v] *)
Fixpoint dict_set (d : list (string * Q)) (k : string) (v : Q) : list (string * Q) :=
  match d with
  | [] => [(k, v)]
  | (k', v') :: t =>
      if String.eqb k' k then (k', v) :: t else (k', v') :: dict_set t k v
  end.

(** [d[k] += v] for a key already present. *)
Fixpoint dict_incr (d : list (string * Q)) (k : string) (v : Q) : list (string * Q) :=
  match d with
  | [] => []
  | (k', v') :: t =>
      if String.eqb k' k then (k', v' + v) :: t else (k', v') :: dict_incr t k v
  end.

(** ** Content-based recommendations
    ([_get_content_based_recommendations]) *)

Definition query_text (interests : list string) (dept : string) : string :=
  match interests with
  | [] => dept
  | _ => String.concat " " interests ++ " " ++ dept
  end.

(** Position of the first course row with a given identifier. *)
Fixpoint course_index (courses : list Course) (cid : string) : option nat :=
  match courses with
  | [] => None
  | c :: t =>
      if String.eqb (course_id c) cid then Some O
      else option_map S (course_index t cid)
  end.

(** [scores += 0.5 * row] on numpy vectors: a row of one entry is
    broadcast, any other difference of shape is an error. *)
Fixpoint add_halved (scores row : list Q) : result (list Q) :=
  match scores, row with
  | [], [] => Ok []
  | s :: scores', x :: row' =>
      do rest <- add_halved scores' row' ; Ok (s + (1 # 2) * x :: rest)
  | _, _ => Raise (ValueError "operands could not be broadcast together")
  end.

Definition iadd_halved (scores row : list Q) : result (list Q) :=
  match row with
  | [x] => Ok (map (fun s => s + (1 # 2) * x) scores)
  | _ => add_halved scores row
  end.

(** The courses of a student in order of first appearance
    ([Series.unique]). *)
Definition student_courses (history : list HistoryRecord) (sid : string)
  : list string :=
  unique (map h_course_id
            (filter (fun r => String.eqb (h_student_id r) sid) history)).

Fixpoint add_taken_similarities (courses : list Course) (sim : list (list Q))
    (taken : list string) (scores : list Q) : result (list Q) :=
  match taken with
  | [] => Ok scores
  | cid :: rest =>
      match course_index courses cid with
      | None => add_taken_similarities courses sim rest scores
      | Some i =>
          match nth_error sim i with
          | None => Raise IndexError
          | Some row =>
              do scores' <- iadd_halved scores row ;
              add_taken_similarities courses sim rest scores'
          end
      end
  end.

(** [[(courses_df.iloc[i]['course_id'], scores[i]) for i in range(len(courses_df))]] *)
Fixpoint course_scores (courses : list Course) (scores : list Q)
  : result (list (string * Q)) :=
  match courses with
  | [] => Ok []
  | c :: courses' =>
      match scores with
      | [] => Raise IndexError
      | s :: scores' =>
          do rest <- course_scores courses' scores' ; Ok ((course_id c, s) :: rest)
      end
  end.

Definition _get_content_based_recommendations
    (courses : list Course) (history : list HistoryRecord)
    (qsim : string -> list Q) (sim : list (list Q))
    (sid : string) (interests : list string) (dept : string) (limit : Z)
  : result (list (string * Q)) :=
  let similarity_scores := qsim (query_text interests dept) in
  do scores <- add_taken_similarities courses sim
                 (student_courses history sid) similarity_scores ;
  do pairs <- course_scores courses scores ;
  Ok (take limit (sorted_desc pairs)).

(** ** Collaborative recommendations and the fused pipeline *)

Record Recommendation : Type := mkRecommendation {
  courseId : string;
  courseName : string;
  courseCode : string;
  rec_department : string;
  rec_credits : Z;
  rec_difficulty : string;
  rec_description : string;
  rating : option Q;
  matchScore : Z;
  rec_keywords : list string
}.

Section Engine.

(** [sklearn.metrics.pairwise.cosine_similarity] on two vectors. *)
Variable cosine_similarity : list Q -> list Q -> Q.

Definition common_mask (u v : list Q) : list bool :=
  map (fun p => Qltb 0 (fst p) && Qltb 0 (snd p)) (combine u v).

Definition mask_sum (mask : list bool) : nat :=
  List.length (filter (fun b => b) mask).

(** [ratings[mask]] *)
Definition masked (mask : list bool) (u : list Q) : list Q :=
  map snd (filter fst (combine mask u)).

(** The dictionary [student_similarities], in insertion order. *)
Definition student_similarities (mx : Matrix) (sid : string)
  : list (string * Q) :=
  let student_ratings := loc mx sid in
  flat_map
    (fun other_id =>
       if String.eqb other_id sid then []
       else
         let other_ratings := loc mx other_id in
         let mask := common_mask student_ratings other_ratings in
         if (2 <=? mask_sum mask)%nat then
           [(other_id,
             cosine_similarity (masked mask student_ratings)
                               (masked mask other_ratings))]
         else [])
    (index mx).

(** One neighbour's pass over the columns of the matrix. *)
Definition add_neighbour (mx : Matrix) (sid : string)
    (scores : list (string * Q)) (neighbour : string * Q)
  : list (string * Q) :=
  let (other_id, similarity) := neighbour in
  fold_left
    (fun acc course =>
       let other_rating := cell mx other_id course in
       if Qltb 3 other_rating && Qeq_bool (cell mx sid course) 0 then
         let acc' := match dict_get acc course with
                     | None => dict_set acc course 0
                     | Some _ => acc
                     end in
         dict_incr acc' course (similarity * (other_rating / 5))
       else acc)
    (columns mx) scores.

Definition _get_collaborative_recommendations
    (mx : Matrix) (sid : string) (limit : Z) : list (string * Q) :=
  if negb (mem sid (index mx)) then []
  else
    let neighbours := take 10 (sorted_desc (student_similarities mx sid)) in
    let scores := fold_left (add_neighbour mx sid) neighbours [] in
    take limit (sorted_desc scores).

(** The taken-course set of [recommend_courses]. *)
Definition taken_courses (m : Model) (sid : string) (exclude_taken : bool)
  : list string :=
  if exclude_taken then
    map h_course_id
        (filter (fun r => String.eqb (h_student_id r) sid) (course_history_df m))
  else [].

(** [df[df[key] == v].iloc[0]] *)
Definition first_row {A : Type} (key : A -> string) (v : string) (df : list A)
  : result A :=
  match find (fun r => String.eqb (key r) v) df with
  | Some r => Ok r
  | None => Raise IndexError
  end.

(** The list [collaborative_recs] of [recommend_courses]. *)
Definition collaborative_recs (m : Model) (sid : string) (limit : Z)
  : list (string * Q) :=
  let mx := student_course_matrix m in
  if mem sid (index mx) && negb (Qeq_bool (Qsum (loc mx sid)) 0) then
    _get_collaborative_recommendations mx sid (limit * 2)
  else [].

(** The dictionary [all_recs]. *)
Definition merge_content (taken : list string) (content : list (string * Q))
  : list (string * Q) :=
  fold_left
    (fun acc p => if mem (fst p) taken then acc
                  else dict_set acc (fst p) (snd p * (4 # 10)))
    content [].

Definition merge_collaborative (taken : list string)
    (collab : list (string * Q)) (all : list (string * Q))
  : list (string * Q) :=
  fold_left
    (fun acc p =>
       if mem (fst p) taken then acc
       else match dict_get acc (fst p) with
            | Some _ => dict_incr acc (fst p) (snd p * (6 # 10))
            | None => dict_set acc (fst p) (snd p * (6 # 10))
            end)
    collab all.

Definition all_recs (taken : list string)
    (content collab : list (string * Q)) : list (string * Q) :=
  merge_collaborative taken collab (merge_content taken content).

Definition level_match (c : Course) (student_year : Z) : Q :=
  if (level c / 100 =? student_year)%Z then 12 # 10 else 1.

Definition final_score (c : Course) (student_year : Z) (score : Q) : Q :=
  let popularity_boost := popularity_score c * (2 # 10) in
  score * (6 # 10) + popularity_boost * (2 # 10)
  + level_match c student_year * (2 # 10).

Definition prereq_met (c : Course) (taken : list string) : bool :=
  forallb (fun prereq => mem prereq taken) (prerequisites c).

Definition passes_difficulty (difficulty_filter : option string) (c : Course)
  : bool :=
  match difficulty_filter with
  | Some d => String.eqb (difficulty c) d
  | None => true
  end.

(** The list [filtered_courses]. *)
Fixpoint filtered_courses (courses : list Course) (taken : list string)
    (difficulty_filter : option string) (student_year : Z)
    (recs : list (string * Q)) : result (list (string * Q)) :=
  match recs with
  | [] => Ok []
  | (cid, score) :: rest =>
      do course <- first_row course_id cid courses ;
      do tail <- filtered_courses courses taken difficulty_filter
                   student_year rest ;
      if passes_difficulty difficulty_filter course then
        if prereq_met course taken
        then Ok ((cid, final_score course student_year score) :: tail)
        else Ok tail
      else Ok tail
  end.

Definition match_score (score : Q) : Z := Z.min (round (score * 100)) 100.

Definition course_info (c : Course) (cid : string) (score : Q) : Recommendation :=
  mkRecommendation cid (course_name c) (course_code c) (department c)
    (credits c) (difficulty c) (description c)
    (match avg_rating c with
     | Some r => Some r
     | None => None
     end)
    (match_score score) (keywords c).

Fixpoint format_results (courses : list Course) (top : list (string * Q))
  : result (list Recommendation) :=
  match top with
  | [] => Ok []
  | (cid, score) :: rest =>
      do course <- first_row course_id cid courses ;
      do tail <- format_results courses rest ;
      Ok (course_info course cid score :: tail)
  end.

(** The list [top_courses]: everything up to the formatting loop. *)
Definition top_courses (m : Model) (sid : string) (limit : Z)
    (exclude_taken : bool) (difficulty_filter : option string)
  : result (list (string * Q)) :=
  match course_similarity_matrix m with
  | None => Raise (ValueError "Model must be trained first")
  | Some sim =>
      let taken := taken_courses m sid exclude_taken in
      do student_info <- first_row student_id sid (students_df m) ;
      do content_based_recs <-
         _get_content_based_recommendations (courses_df m) (course_history_df m)
           (query_similarity m) sim sid (topic_interests student_info)
           (s_department student_info) (limit * 2) ;
      let collab := collaborative_recs m sid limit in
      do filtered <-
         filtered_courses (courses_df m) taken difficulty_filter
           (year_of_study student_info)
           (all_recs taken content_based_recs collab) ;
      Ok (take limit (sorted_desc filtered))
  end.

Definition recommend_courses (m : Model) (sid : string) (limit : Z)
    (exclude_taken : bool) (difficulty_filter : option string)
  : result (list Recommendation) :=
  do top <- top_courses m sid limit exclude_taken difficulty_filter ;
  format_results (courses_df m) top.

End Engine.

(** ** The evaluator ([evaluate]) *)

Record EvalRow : Type := mkEvalRow {
  er_student_id : string;
  er_hit : bool;
  er_rank : option nat;
  er_precision_at_5 : Z;
  er_precision_at_10 : Z
}.

Inductive EvalOutput : Type :=
| EvalError (error : string)
| EvalMetrics (hit_rate precision_at_5 precision_at_10 mrr : Q)
              (num_test_students : nat).

Fixpoint position (x : string) (l : list string) : option nat :=
  match l with
  | [] => None
  | y :: t => if String.eqb y x then Some O else option_map S (position x t)
  end.

Section Evaluator.

(** [np.random.choice(a, size, replace=False)] under the fixed seed, and
    the order in which a Python set of strings is listed: both are fixed
    by the run-time, not by the engine.  The sample size
    [int(len(all_students) * 0.2)] is the quotient of the length by 5. *)
Variable random_choice : list string -> nat -> list string.
Variable set_to_list : list string -> list string.

(** [set(history[history.student_id == sid].course_id.tolist())] *)
Definition course_set (history : list HistoryRecord) (sid : string)
  : list string :=
  unique (map h_course_id
            (filter (fun r => String.eqb (h_student_id r) sid) history)).

Definition test_students (m : Model) (test_student_ids : option (list string))
  : list string :=
  match test_student_ids with
  | Some ids => ids
  | None =>
      let all_students := unique (map student_id (students_df m)) in
      random_choice all_students (List.length all_students / 5)
  end.

(** One pass of the loop body for a student that is not skipped.  The
    scratch recommender is refitted on the same course table, so its
    content index is the one of [m]; the held-out course is the last
    element of the listed set, which has at least two elements here. *)
Definition evaluate_student (m : Model) (sim : list (list Q)) (sid : string)
  : result EvalRow :=
  let test_course := last (set_to_list (course_set (course_history_df m) sid)) "" in
  let temp_history :=
    filter (fun r => negb (String.eqb (h_student_id r) sid
                           && String.eqb (h_course_id r) test_course))
           (course_history_df m) in
  do info <- first_row student_id sid (students_df m) ;
  do recommendations <-
     _get_content_based_recommendations (courses_df m) temp_history
       (query_similarity m) sim sid (topic_interests info) (s_department info) 20 ;
  let rec_courses := map fst recommendations in
  match position test_course rec_courses with
  | Some i =>
      let rank := S i in
      Ok (mkEvalRow sid true (Some rank)
            (if (rank <=? 5)%nat then 1 else 0)
            (if (rank <=? 10)%nat then 1 else 0))
  | None => Ok (mkEvalRow sid false None 0 0)
  end.

(** The list [results] after the loop. *)
Fixpoint evaluate_results (m : Model) (sim : list (list Q)) (ids : list string)
  : result (list EvalRow) :=
  match ids with
  | [] => Ok []
  | sid :: rest =>
      if (List.length (course_set (course_history_df m) sid) <? 2)%nat then
        evaluate_results m sim rest
      else
        do row <- evaluate_student m sim sid ;
        do rows <- evaluate_results m sim rest ;
        Ok (row :: rows)
  end.

Definition count_of (n : nat) : Q := inject_Z (Z.of_nat n).

Definition evaluate (m : Model) (test_student_ids : option (list string))
  : result EvalOutput :=
  match course_similarity_matrix m with
  | None => Raise (ValueError "Model must be trained first")
  | Some sim =>
      do results <- evaluate_results m sim (test_students m test_student_ids) ;
      match results with
      | [] => Ok (EvalError "No suitable test students found")
      | _ =>
          let n := count_of (List.length results) in
          let hit_rate :=
            Qsum (map (fun r => if er_hit r then 1 else 0) results) / n in
          let p5 := Qsum (map (fun r => inject_Z (er_precision_at_5 r)) results) / n in
          let p10 := Qsum (map (fun r => inject_Z (er_precision_at_10 r)) results) / n in
          let reciprocal_ranks :=
            map (fun r => match er_rank r with
                          | Some k => 1 / count_of k
                          | None => 0
                          end) results in
          Ok (EvalMetrics hit_rate p5 p10 (Qsum reciprocal_ranks / n)
                (List.length results))
      end
  end.

End Evaluator.

(** ** Training ([preprocess_data] and [train]) *)

Section Training.

(** The fitted TF-IDF vectorizer, seen from the engine: for a corpus of
    course texts, the cosine of a query against every course, and the
    cosine of every pair of courses. *)
Variable fit_query_similarity : list string -> string -> list Q.
Variable fit_course_similarity : list string -> list (list Q).

(** [train] without its writes to disk.  The columns that
    [_calculate_course_difficulty] adds are read by no other method and are
    left out of [Course]. *)
Definition train (csv_has_avg_rating : bool) (rows : list CourseRow)
    (students : list Student) (history : list HistoryRecord) : Model :=
  let corpus := map content_text rows in
  mkModel (_calculate_course_popularity csv_has_avg_rating rows history)
          students history
          (fit_query_similarity corpus)
          (Some (fit_course_similarity corpus))
          (_create_student_course_matrix history).

End Training.

(** ** The course x course similarity matrix
    ([_create_course_content_features]) in binary64 *)

Module ContentSimilarity.

Import Floats.
Local Open Scope float_scope.


Section Products.

(** The reduction that adds up the terms of a dot product: the library
    chooses the order of the additions. *)
Variable reduce : list float -> float.

Definition dot (u v : list float) : float :=
  reduce (map (fun p => fst p * snd p) (combine u v)).

Definition norm (u : list float) : float := PrimFloat.sqrt (dot u u).

(** [sklearn.preprocessing.normalize]: a row of norm zero is divided
    by one. *)
Definition normalize (u : list float) : list float :=
  let n := if PrimFloat.eqb (norm u) 0 then 1 else norm u in
  map (fun x => x / n) u.

(** [cosine_similarity(X)]: the products of the normalized rows. *)
Definition cosine_similarity (X : list (list float)) : list (list float) :=
  let Xn := map normalize X in
  map (fun u => map (fun v => dot u v) Xn) Xn.


End Products.




End ContentSimilarity.

(** ** A small campus, used to run the engine *)

Module Demo.

Definition Qdot (u v : list Q) : Q :=
  Qsum (map (fun p => fst p * snd p) (combine u v)).

(** Square root of a rational, exact on the squares of rationals. *)
Definition Qsqrt (x : Q) : Q :=
  Z.sqrt (Qnum x * Zpos (Qden x)) # Qden x.

(** The cosine of two vectors; exact when the product of the two squared
    norms is the square of a rational. *)
Definition cosine (u v : list Q) : Q :=
  let n := Qsqrt (Qdot u u * Qdot v v) in
  if Qeq_bool n 0 then 0 else Qdot u v / n.

Definition intro_programming : CourseRow :=
  mkCourseRow "COURSE1000" "CS 101" "Introduction to Programming"
    "Computer Science" "This introductory level course covers programming."
    [] 100 "introductory" 3 ["programming"; "software"].

Definition data_structures : CourseRow :=
  mkCourseRow "COURSE1001" "CS 201" "Data Structures"
    "Computer Science" "This advanced level course covers data structures."
    ["COURSE1000"] 200 "advanced" 3 ["data"; "algorithms"].

Definition calculus : CourseRow :=
  mkCourseRow "COURSE1002" "MATH 110" "Calculus"
    "Mathematics" "This introductory level course covers calculus."
    [] 100 "introductory" 4 ["calculus"].

Definition course_rows : list CourseRow :=
  [intro_programming; data_structures; calculus].

Definition students : list Student :=
  [ mkStudent "S1000" "Computer Science" "Computer Science" 1 (7 # 2)
      ["programming"; "data"];
    mkStudent "S1001" "Data Science" "Computer Science" 2 (3 # 1) [];
    mkStudent "S1002" "Statistics" "Mathematics" 1 (16 # 5) ["calculus"] ].

(** S1000 and S1001 agree on two courses; S1001 also liked a third one.
    Nobody rated the calculus course; S1002 has no history. *)
Definition history : list HistoryRecord :=
  [ mkHistory "S1000" "COURSE1000" "Fall 2024" "A" 4 (Some 4);
    mkHistory "S1000" "COURSE1002" "Fall 2024" "C" 2 None;
    mkHistory "S1001" "COURSE1000" "Fall 2023" "A" 4 (Some 4);
    mkHistory "S1001" "COURSE1002" "Fall 2023" "C" 2 None;
    mkHistory "S1001" "COURSE1001" "Spring 2024" "B" 3 (Some 5) ].

(** A student who repeated a course: rated 5 the first time, 2 the
    second. *)
Definition first_attempt : HistoryRecord :=
  mkHistory "S1000" "COURSE1000" "Fall 2023" "D" 1 (Some 5).

Definition second_attempt : HistoryRecord :=
  mkHistory "S1000" "COURSE1000" "Fall 2024" "B" 3 (Some 2).

Definition retake_history : list HistoryRecord :=
  [first_attempt; second_attempt].

(** Scores as a vectorizer fitted on the three course texts could give
    them: a query against the three courses, and the three courses
    against each other. *)
Definition fit_query_similarity (corpus : list string) (query : string)
  : list Q :=
  if String.eqb query "calculus Mathematics" then [0; 0; 3 # 5]
  else [1 # 2; 2 # 5; 0].

Definition fit_course_similarity (corpus : list string) : list (list Q) :=
  [ [1; 3 # 10; 1 # 10];
    [3 # 10; 1; 1 # 10];
    [1 # 10; 1 # 10; 1] ].

Definition model : Model :=
  train fit_query_similarity fit_course_similarity false
    course_rows students history.

(** Every student with a single course. *)
Definition single_course_history : list HistoryRecord :=
  [ mkHistory "S1000" "COURSE1000" "Fall 2024" "A" 4 (Some 4);
    mkHistory "S1001" "COURSE1001" "Fall 2024" "B" 3 None;
    mkHistory "S1002" "COURSE1002" "Fall 2024" "C" 2 (Some 3) ].

Definition single_course_model : Model :=
  train fit_query_similarity fit_course_similarity false
    course_rows students single_course_history.

End Demo.

(** ** The fusion rule in closed form *)

(** The score of a course in a list of (course, score) pairs is
    [dict_get]; the fused score of a course is 0.4 times its content score
    plus 0.6 times its collaborative score, each term present when the
    course is in the respective list. *)
Definition merged_score (content collab : list (string * Q)) (cid : string)
  : option Q :=
  match dict_get content cid, dict_get collab cid with
  | Some a, Some b => Some (a * (4 # 10) + b * (6 # 10))
  | Some a, None => Some (a * (4 # 10))
  | None, Some b => Some (b * (6 # 10))
  | None, None => None
  end.

(** ** Course difficulty ([_calculate_course_difficulty]) *)

(** The dictionary [difficulty_map]; a tier outside it maps to NaN. *)
Definition difficulty_map (d : string) : option Q :=
  if String.eqb d "introductory" then Some 1
  else if String.eqb d "intermediate" then Some 2
  else if String.eqb d "advanced" then Some 3
  else if String.eqb d "specialized" then Some 4
  else None.

Definition course_grades (history : list HistoryRecord) (cid : string) : list Q :=
  map grade_value (filter (fun r => String.eqb (h_course_id r) cid) history).

(** [avg_grade] after the left merge and [fillna(0)]. *)
Definition avg_grade (history : list HistoryRecord) (cid : string) : Q :=
  match course_grades history cid with
  | [] => 0
  | gs => mean gs
  end.

Definition grade_count (history : list HistoryRecord) (cid : string) : nat :=
  List.length (course_grades history cid).

Definition grade_max : Q := 4.

(** The column [difficulty_score] before it is normalized: the [np.where]
    over [grade_count > 5]. *)
Definition raw_difficulty_score (history : list HistoryRecord) (r : CourseRow)
  : option Q :=
  let cid := row_course_id r in
  match difficulty_map (row_difficulty r) with
  | None => None
  | Some difficulty_num =>
      if (5 <? grade_count history cid)%nat then
        Some ((7 # 10) * (grade_max - avg_grade history cid) / grade_max
              + (3 # 10) * difficulty_num / 4)
      else Some (difficulty_num / 4)
  end.

Definition Qmin (x y : Q) : Q := if Qltb y x then y else x.

(** [Series.min()] and [Series.max()]: NaN entries are skipped, and the
    result is NaN when nothing is left. *)
Fixpoint series_min (l : list (option Q)) : option Q :=
  match l with
  | [] => None
  | None :: t => series_min t
  | Some x :: t =>
      match series_min t with
      | None => Some x
      | Some y => Some (Qmin x y)
      end
  end.

Fixpoint series_max (l : list (option Q)) : option Q :=
  match l with
  | [] => None
  | None :: t => series_max t
  | Some x :: t =>
      match series_max t with
      | None => Some x
      | Some y => Some (Qmax x y)
      end
  end.

(** [(score - min) / (max - min)] on floats: NaN when an operand is NaN and
    when the range is zero (0/0). *)
Definition normalize_score (lo hi : option Q) (score : option Q) : option Q :=
  match score, lo, hi with
  | Some v, Some a, Some b =>
      if Qeq_bool (b - a) 0 then None else Some ((v - a) / (b - a))
  | _, _, _ => None
  end.

(** The column [difficulty_score], one entry per course row. *)
Definition _calculate_course_difficulty (rows : list CourseRow)
    (history : list HistoryRecord) : list (option Q) :=
  let raw := map (raw_difficulty_score history) rows in
  map (normalize_score (series_min raw) (series_max raw)) raw.

(** ** Further example data *)

Module Cases.

(** A history that mentions a course the course table does not have:
    S1001 liked a course "COURSE2000". *)
Definition orphan_history : list HistoryRecord :=
  (Demo.history
   ++ [mkHistory "S1001" "COURSE2000" "Spring 2024" "A" 4 (Some 5)])%list.

Definition orphan_model : Model :=
  train Demo.fit_query_similarity Demo.fit_course_similarity false
    Demo.course_rows Demo.students orphan_history.

(** The example campus with S1001 missing from the students table. *)
Definition shrunk_students : list Student :=
  [ mkStudent "S1000" "Computer Science" "Computer Science" 1 (7 # 2)
      ["programming"; "data"];
    mkStudent "S1002" "Statistics" "Mathematics" 1 (16 # 5) ["calculus"] ].

Definition shrunk_model : Model :=
  train Demo.fit_query_similarity Demo.fit_course_similarity false
    Demo.course_rows shrunk_students Demo.history.








(** A table with one course. *)
Definition one_course : list CourseRow := [Demo.intro_programming].

End Cases.

(** ** Ranked lists *)

(** A list of scored items whose scores never increase. *)
Definition descending {A : Type} (l : list (A * Q)) : Prop :=
  StronglySorted (fun a b => snd b <= snd a) l.

(** A course the student has no interaction with and that some other
    student of the matrix rated above 3. *)
Definition liked_unseen (mx : Matrix) (sid : string) (course : string) : Prop :=
  In course (columns mx) /\
  cell mx sid course == 0 /\
  exists other, In other (index mx) /\ other <> sid /\ 3 < cell mx other course.

(** A result row of the evaluator that agrees with itself: a hit has a rank
    between 1 and 20 and the two precision flags that the rank gives, a miss
    has no rank and both flags at 0. *)
Definition row_consistent (r : EvalRow) : Prop :=
  match er_rank r with
  | Some k =>
      er_hit r = true /\ (1 <= k <= 20)%nat /\
      er_precision_at_5 r = (if (k <=? 5)%nat then 1 else 0)%Z /\
      er_precision_at_10 r = (if (k <=? 10)%nat then 1 else 0)%Z
  | None =>
      er_hit r = false /\ er_precision_at_5 r = 0%Z /\ er_precision_at_10 r = 0%Z
  end.

(** * Properties *)

(** ** Lists, identifiers and sorting *)

Lemma mem_In (x : string) (l : list string) : mem x l = true <-> In x l.
Proof.
  unfold mem. rewrite existsb_exists. split.
  - intros (y & Hy & E). apply String.eqb_eq in E. now subst.
  - intros H. exists x. split; [assumption | apply String.eqb_refl].
Qed.

Lemma mem_false (x : string) (l : list string) : mem x l = false <-> ~ In x l.
Proof.
  rewrite <- mem_In. destruct (mem x l); split; congruence.
Qed.

Lemma unique_In (x : string) (l : list string) : In x (unique l) <-> In x l.
Proof.
  induction l as [| y t IH]; simpl; [tauto |].
  rewrite filter_In, IH, negb_true_iff, String.eqb_neq.
  destruct (string_dec y x); intuition congruence.
Qed.

Lemma unique_NoDup (l : list string) : NoDup (unique l).
Proof.
  induction l as [| y t IH]; simpl; constructor.
  - rewrite filter_In, negb_true_iff, String.eqb_neq. intuition congruence.
  - now apply NoDup_filter.
Qed.

Lemma insert_sorted_perm (x : string) (l : list string) :
  Permutation (insert_sorted x l) (x :: l).
Proof.
  induction l as [| y t IH]; simpl; [reflexivity |].
  destruct (String.leb x y); [reflexivity |].
  rewrite IH. apply perm_swap.
Qed.

Lemma sort_ids_perm (l : list string) : Permutation (sort_ids l) l.
Proof.
  induction l as [| y t IH]; simpl; [reflexivity |].
  rewrite insert_sorted_perm. now apply perm_skip.
Qed.

Lemma sort_ids_In (x : string) (l : list string) : In x (sort_ids l) <-> In x l.
Proof.
  split; apply Permutation_in; [| symmetry]; apply sort_ids_perm.
Qed.

Lemma insert_desc_perm {A : Type} (x : A * Q) (l : list (A * Q)) :
  Permutation (insert_desc x l) (x :: l).
Proof.
  induction l as [| y t IH]; simpl; [reflexivity |].
  destruct (Qltb (snd x) (snd y)); [| reflexivity].
  rewrite IH. apply perm_swap.
Qed.

Lemma sorted_desc_perm {A : Type} (l : list (A * Q)) :
  Permutation (sorted_desc l) l.
Proof.
  induction l as [| y t IH]; simpl; [reflexivity |].
  rewrite insert_desc_perm. now apply perm_skip.
Qed.

Lemma take_prefix {A : Type} (k : Z) (l : list A) :
  exists n, take k l = firstn n l.
Proof.
  unfold take. destruct (k <? 0)%Z; eexists; reflexivity.
Qed.

Lemma firstn_incl {A : Type} (n : nat) (l : list A) (x : A) :
  In x (firstn n l) -> In x l.
Proof.
  revert l. induction n as [| n IH]; intros [| y t]; simpl; try tauto.
  intros [H | H]; [now left | right; now apply IH].
Qed.

Lemma take_In {A : Type} (k : Z) (l : list A) (x : A) :
  In x (take k l) -> In x l.
Proof.
  destruct (take_prefix k l) as (n & ->). apply firstn_incl.
Qed.

Lemma firstn_NoDup {A : Type} (n : nat) (l : list A) :
  NoDup l -> NoDup (firstn n l).
Proof.
  revert l. induction n as [| n IH]; intros [| y t] H; simpl; try constructor.
  - inversion H; subst. intros Hin. now apply firstn_incl in Hin.
  - inversion H; subst. now apply IH.
Qed.

(** What survives sorting and truncation was in the list. *)
Lemma ranked_In {A : Type} (k : Z) (l : list (A * Q)) (x : A * Q) :
  In x (take k (sorted_desc l)) -> In x l.
Proof.
  intros H. apply take_In in H.
  revert H. apply Permutation_in, sorted_desc_perm.
Qed.

Lemma ranked_keys_NoDup (k : Z) (l : list (string * Q)) :
  NoDup (map fst l) -> NoDup (map fst (take k (sorted_desc l))).
Proof.
  intros H. destruct (take_prefix k (sorted_desc l)) as (n & ->).
  rewrite <- firstn_map. apply firstn_NoDup.
  revert H. apply Permutation_NoDup, Permutation_map.
  symmetry. apply sorted_desc_perm.
Qed.

(** ** The interaction matrix *)

Lemma Qsum_singleton (x : Q) : Qsum [x] == x.
Proof. unfold Qsum. simpl. ring. Qed.

Lemma mean_singleton (x : Q) : mean [x] == x.
Proof. unfold mean. rewrite Qsum_singleton. simpl. field. Qed.

Lemma cell_records_In (history : list HistoryRecord) (sid cid : string)
    (r : HistoryRecord) :
  In r (cell_records history sid cid) <->
  In r history /\ h_student_id r = sid /\ h_course_id r = cid.
Proof.
  unfold cell_records. rewrite filter_In, andb_true_iff, !String.eqb_eq.
  tauto.
Qed.

Lemma matrix_labels (history : list HistoryRecord) (r : HistoryRecord) :
  In r history ->
  mem (h_student_id r) (index (_create_student_course_matrix history)) = true /\
  mem (h_course_id r) (columns (_create_student_course_matrix history)) = true.
Proof.
  intros H. simpl. rewrite !mem_In, !sort_ids_In, !unique_In.
  split; now apply in_map.
Qed.

Lemma index_has_history (history : list HistoryRecord) (sid : string) :
  In sid (index (_create_student_course_matrix history)) ->
  exists r, In r history /\ h_student_id r = sid.
Proof.
  simpl. rewrite sort_ids_In, unique_In, in_map_iff.
  intros (r & E & H). now exists r.
Qed.

(** C10: a pair of student and course with several history records (a
    retake) has, as its cell of the student x course matrix, the arithmetic
    mean of the interaction values of those records: their sum over their
    number.  The student and the course label a row and a column. *)
Theorem retake_cell_is_mean (history : list HistoryRecord) (sid cid : string) :
  cell_records history sid cid <> [] ->
  let m := _create_student_course_matrix history in
  let vs := map interaction_value (cell_records history sid cid) in
  mem sid (index m) = true /\ mem cid (columns m) = true /\
  cell m sid cid = Qsum vs / inject_Z (Z.of_nat (List.length vs)).
Proof.
  intros Hne m vs.
  destruct (cell_records history sid cid) as [| r rs] eqn:E; [congruence |].
  assert (Hr : In r (cell_records history sid cid)) by (rewrite E; now left).
  apply cell_records_In in Hr. destruct Hr as (Hin & Hs & Hc).
  destruct (matrix_labels history r Hin) as (Hi & Hcol).
  rewrite Hs in Hi. rewrite Hc in Hcol.
  repeat split; try assumption.
  subst m vs. simpl. unfold pivot_cell. rewrite E. reflexivity.
Qed.

Lemma retake_cell_is_mean_witness :
  cell_records Demo.retake_history "S1000" "COURSE1000" <> [] /\
  cell (_create_student_course_matrix Demo.retake_history) "S1000" "COURSE1000"
  = Qsum [5; 2] / 2.
Proof.
  split; [discriminate |].
  apply (retake_cell_is_mean Demo.retake_history "S1000" "COURSE1000").
  discriminate.
Defined.

(** In the retake of the example the cell is 7/2: neither the latest value
    (2) nor the largest (5). *)
Example retake_cell_value :
  cell (_create_student_course_matrix Demo.retake_history) "S1000" "COURSE1000"
  == 7 # 2.
Proof. reflexivity. Qed.

(** The rating of a record is not what the matrix stores when the student
    repeated the course: the first attempt is rated 5, the cell is not 5. *)
Lemma rating_not_stored_on_retake :
  In Demo.first_attempt Demo.retake_history /\
  student_rating Demo.first_attempt = Some 5 /\
  ~ cell (_create_student_course_matrix Demo.retake_history)
         (h_student_id Demo.first_attempt) (h_course_id Demo.first_attempt)
    == 5.
Proof.
  split; [now left |]. split; [reflexivity |].
  intros H. vm_compute in H. discriminate.
Qed.

Lemma sum_of_equal_values (v : Q) (l : list Q) :
  Forall (fun x => x == v) l ->
  forall a, fold_left Qplus l a == a + inject_Z (Z.of_nat (List.length l)) * v.
Proof.
  induction 1 as [| x t Hx Ht IH]; intros a.
  - simpl. ring.
  - cbn [fold_left]. cbv beta in Hx. rewrite IH.
    replace (List.length (x :: t)) with (S (List.length t)) by reflexivity.
    rewrite Nat2Z.inj_succ. unfold Z.succ. rewrite inject_Z_plus.
    change (inject_Z 1) with 1. rewrite Hx. ring.
Qed.

Lemma mean_of_equal_values (v : Q) (l : list Q) :
  l <> [] -> Forall (fun x => x == v) l -> mean l == v.
Proof.
  intros Hne H. unfold mean, Qsum. rewrite (sum_of_equal_values v l H).
  assert (Hn : ~ inject_Z (Z.of_nat (List.length l)) == 0).
  { destruct l as [| x t]; [congruence |].
    unfold Qeq. simpl. lia. }
  field. exact Hn.
Qed.

(** C4, amended: the cell of the student x course matrix for the student
    and course of a history record is the mean of the interaction values of
    all records of that pair.  It therefore equals the record's rating when
    the rating is present, and otherwise the record's grade-derived value,
    whenever the records of the pair all carry the same interaction value:
    in particular when the record is the only one of its pair. *)
Theorem interaction_value_stored (history : list HistoryRecord)
    (r : HistoryRecord) :
  In r history ->
  let m := _create_student_course_matrix history in
  let sid := h_student_id r in
  let cid := h_course_id r in
  let rs := cell_records history sid cid in
  mem sid (index m) = true /\ mem cid (columns m) = true /\
  In r rs /\
  cell m sid cid == mean (map interaction_value rs) /\
  ((forall r', In r' rs -> interaction_value r' == interaction_value r) ->
   match student_rating r with
   | Some rating => cell m sid cid == rating
   | None => cell m sid cid == implied_rating r
   end) /\
  (rs = [r] ->
   match student_rating r with
   | Some rating => cell m sid cid == rating
   | None => cell m sid cid == implied_rating r
   end).
Proof.
  intros Hin m sid cid rs.
  assert (Hr : In r rs) by (apply cell_records_In; auto).
  destruct (matrix_labels history r Hin) as (Hi & Hc).
  assert (Hcell : cell m sid cid = mean (map interaction_value rs)).
  { subst m. simpl. unfold pivot_cell. fold sid cid rs.
    destruct rs; [contradiction | reflexivity]. }
  assert (Hsame : (forall r', In r' rs ->
                     interaction_value r' == interaction_value r) ->
                  match student_rating r with
                  | Some rating => cell m sid cid == rating
                  | None => cell m sid cid == implied_rating r
                  end).
  { intros Hall.
    assert (Hmean : cell m sid cid == interaction_value r).
    { rewrite Hcell. apply mean_of_equal_values.
      - destruct rs; [contradiction | discriminate].
      - apply Forall_map, Forall_forall. exact Hall. }
    unfold interaction_value in Hmean.
    destruct (student_rating r); exact Hmean. }
  do 3 (split; [assumption |]).
  split; [rewrite Hcell; reflexivity |].
  split; [exact Hsame |].
  intros E. apply Hsame. intros r' Hr'. rewrite E in Hr'.
  destruct Hr' as [<- | []]. reflexivity.
Qed.

Lemma interaction_value_stored_witness :
  In (mkHistory "S1001" "COURSE1001" "Spring 2024" "B" 3 (Some 5)) Demo.history /\
  cell (student_course_matrix Demo.model) "S1001" "COURSE1001" == 5.
Proof.
  assert (H : In (mkHistory "S1001" "COURSE1001" "Spring 2024" "B" 3 (Some 5))
                 Demo.history) by (simpl; tauto).
  split; [exact H |].
  destruct (interaction_value_stored Demo.history _ H)
    as (_ & _ & _ & _ & _ & Hone).
  exact (Hone eq_refl).
Defined.

(** The grade-derived value spans 0 to 5 for grade values from 0 to 4. *)
Lemma implied_rating_range (r : HistoryRecord) :
  0 <= grade_value r <= 4 -> 0 <= implied_rating r <= 5.
Proof.
  unfold implied_rating, max_grade. intros (H0 & H4).
  setoid_replace (grade_value r / 4 * 5) with (grade_value r * (5 # 4)) by field.
  split; nra.
Qed.

(** ** The collaborative recommender *)

Lemma Qsum_from (l : list Q) (a : Q) : fold_left Qplus l a == a + Qsum l.
Proof.
  unfold Qsum. revert a. induction l as [| x t IH]; intros a; simpl.
  - ring.
  - rewrite IH, (IH (0 + x)). ring.
Qed.

Lemma Qsum_cons (x : Q) (l : list Q) : Qsum (x :: l) == x + Qsum l.
Proof.
  unfold Qsum at 1. simpl. rewrite Qsum_from. ring.
Qed.

Lemma Qsum_nonneg (l : list Q) : Forall (fun x => 0 <= x) l -> 0 <= Qsum l.
Proof.
  induction 1 as [| x t Hx Ht IH].
  - discriminate.
  - rewrite Qsum_cons. lra.
Qed.

Lemma zero_sum_zero_row (l : list Q) :
  Forall (fun x => 0 <= x) l -> Qsum l == 0 -> Forall (fun x => x == 0) l.
Proof.
  induction 1 as [| x t Hx Ht IH]; intros Hs; constructor.
  - rewrite Qsum_cons in Hs. pose proof (Qsum_nonneg t Ht). lra.
  - apply IH. rewrite Qsum_cons in Hs. pose proof (Qsum_nonneg t Ht). lra.
Qed.

Lemma Qltb_true (x y : Q) : Qltb x y = true <-> x < y.
Proof.
  unfold Qltb. rewrite negb_true_iff. split.
  - intros H. apply Qnot_le_lt. intros Hle.
    apply Qle_bool_iff in Hle. congruence.
  - intros H. destruct (Qle_bool y x) eqn:E; [| reflexivity].
    apply Qle_bool_iff in E. lra.
Qed.

Lemma Qltb_false (x y : Q) : Qltb x y = false <-> y <= x.
Proof.
  unfold Qltb. rewrite negb_false_iff. apply Qle_bool_iff.
Qed.

Lemma zero_row_has_no_mask (u v : list Q) :
  Forall (fun x => x == 0) u -> mask_sum (common_mask u v) = O.
Proof.
  intros H. revert v. induction H as [| x t Hx Ht IH]; intros [| y v]; try reflexivity.
  unfold mask_sum, common_mask in *. simpl.
  assert (E : Qltb 0 x = false) by (apply Qltb_false; lra).
  rewrite E. simpl. apply IH.
Qed.

Lemma take_nil {A : Type} (k : Z) : take k (@nil A) = [].
Proof.
  unfold take. destruct (k <? 0)%Z; simpl; [reflexivity | apply firstn_nil].
Qed.

Section CollaborativeFacts.

Variable cosine_similarity : list Q -> list Q -> Q.

Lemma zero_row_has_no_neighbours (mx : Matrix) (sid : string) :
  Forall (fun x => x == 0) (loc mx sid) ->
  student_similarities cosine_similarity mx sid = [].
Proof.
  intros H. unfold student_similarities.
  induction (index mx) as [| o t IH]; [reflexivity |].
  cbn [flat_map]. rewrite IH, app_nil_r.
  destruct (String.eqb o sid); [reflexivity |].
  rewrite zero_row_has_no_mask by assumption. reflexivity.
Qed.

Lemma collaborative_recs_guarded (m : Model) (sid : string) (limit : Z) :
  mem sid (index (student_course_matrix m)) = false \/
  Qsum (loc (student_course_matrix m) sid) == 0 ->
  collaborative_recs cosine_similarity m sid limit = [].
Proof.
  intros Hcase. unfold collaborative_recs.
  destruct Hcase as [Hrow | Hsum].
  - rewrite Hrow. reflexivity.
  - apply Qeq_bool_iff in Hsum. rewrite Hsum.
    now rewrite andb_false_r.
Qed.

(** C7: a student with no row in the student x course matrix, or whose
    row sums to zero, contributes no collaborative candidate to
    [recommend_courses]; [_get_collaborative_recommendations] itself
    returns the empty list for a student without a row and for a row of
    interaction values (none negative) that sums to zero. *)
Theorem collaborative_empty (m : Model) (sid : string) (limit : Z) :
  let mx := student_course_matrix m in
  mem sid (index mx) = false \/ Qsum (loc mx sid) == 0 ->
  collaborative_recs cosine_similarity m sid limit = [] /\
  (mem sid (index mx) = false ->
   _get_collaborative_recommendations cosine_similarity mx sid limit = []) /\
  (Forall (fun x => 0 <= x) (loc mx sid) -> Qsum (loc mx sid) == 0 ->
   _get_collaborative_recommendations cosine_similarity mx sid limit = []).
Proof.
  intros mx Hcase. split; [| split].
  - now apply collaborative_recs_guarded.
  - intros Hrow. unfold _get_collaborative_recommendations.
    rewrite Hrow. reflexivity.
  - intros Hpos Hsum. unfold _get_collaborative_recommendations.
    destruct (negb (mem sid (index mx))); [reflexivity |].
    rewrite zero_row_has_no_neighbours
      by (now apply zero_sum_zero_row).
    cbn [sorted_desc fold_right]. rewrite take_nil.
    cbn [fold_left sorted_desc fold_right]. apply take_nil.
Qed.

End CollaborativeFacts.

Lemma collaborative_empty_witness :
  (mem "S1002" (index (student_course_matrix Demo.model)) = false \/
   Qsum (loc (student_course_matrix Demo.model) "S1002") == 0) /\
  collaborative_recs Demo.cosine Demo.model "S1002" 5 = [].
Proof.
  split; [left; reflexivity |].
  destruct (collaborative_empty Demo.cosine Demo.model "S1002" 5
              (or_introl eq_refl)) as (H & _).
  exact H.
Defined.

(** ** The evaluator *)

Section EvaluatorFacts.

Variable random_choice : list string -> nat -> list string.
Variable set_to_list : list string -> list string.

Lemma evaluate_student_id (m : Model) (sim : list (list Q)) (sid : string)
    (row : EvalRow) :
  evaluate_student set_to_list m sim sid = Ok row -> er_student_id row = sid.
Proof.
  unfold evaluate_student.
  destruct (first_row student_id sid (students_df m)) as [info |];
    [| discriminate].
  cbn [bind].
  destruct (_get_content_based_recommendations _ _ _ _ _ _ _ _) as [recs |];
    [| discriminate].
  cbn [bind].
  destruct (position _ _); intros H; injection H as <-; reflexivity.
Qed.

Lemma results_have_two_courses (m : Model) (sim : list (list Q))
    (ids : list string) :
  forall rows, evaluate_results set_to_list m sim ids = Ok rows ->
  forall row, In row rows ->
    In (er_student_id row) ids /\
    (2 <= List.length (course_set (course_history_df m) (er_student_id row)))%nat.
Proof.
  induction ids as [| sid rest IH]; intros rows H row Hin.
  - injection H as <-. contradiction.
  - cbn [evaluate_results] in H.
    destruct (List.length (course_set (course_history_df m) sid) <? 2)%nat eqn:E.
    + destruct (IH rows H row Hin). split; [now right | assumption].
    + destruct (evaluate_student set_to_list m sim sid) as [r |] eqn:Er;
        [| discriminate].
      cbn [bind] in H.
      destruct (evaluate_results set_to_list m sim rest) as [rs |];
        [| discriminate].
      cbn [bind] in H. injection H as <-.
      destruct Hin as [<- | Hin].
      * apply evaluate_student_id in Er. rewrite Er.
        apply Nat.ltb_ge in E. split; [now left | assumption].
      * destruct (IH rs eq_refl row Hin). split; [now right | assumption].
Qed.

Lemma all_skipped (m : Model) (sim : list (list Q)) (ids : list string) :
  (forall sid, In sid ids ->
     (List.length (course_set (course_history_df m) sid) < 2)%nat) ->
  evaluate_results set_to_list m sim ids = Ok [].
Proof.
  induction ids as [| sid rest IH]; intros H; [reflexivity |].
  cbn [evaluate_results].
  assert (E : (List.length (course_set (course_history_df m) sid) <? 2)%nat = true)
    by (apply Nat.ltb_lt, H; now left).
  rewrite E. apply IH. intros s Hs. apply H. now right.
Qed.

(** C8: on a trained model, every student that reaches the results of the
    evaluator is a test student with at least 2 distinct historical
    courses (the others are skipped), and when every test student has
    fewer than 2 the evaluator returns the error result "No suitable test
    students found" and does not raise. *)
Theorem evaluator_skips_short_histories (m : Model)
    (test_student_ids : option (list string)) (sim : list (list Q)) :
  course_similarity_matrix m = Some sim ->
  let ids := test_students random_choice m test_student_ids in
  (forall rows, evaluate_results set_to_list m sim ids = Ok rows ->
   forall row, In row rows ->
     In (er_student_id row) ids /\
     (2 <= List.length (course_set (course_history_df m) (er_student_id row)))%nat)
  /\
  ((forall sid, In sid ids ->
      (List.length (course_set (course_history_df m) sid) < 2)%nat) ->
   evaluate random_choice set_to_list m test_student_ids
   = Ok (EvalError "No suitable test students found")).
Proof.
  intros Hsim ids. split.
  - apply results_have_two_courses.
  - intros Hall. unfold evaluate. rewrite Hsim. fold ids.
    rewrite all_skipped by assumption. reflexivity.
Qed.

End EvaluatorFacts.

Lemma evaluator_skips_short_histories_witness :
  course_similarity_matrix Demo.single_course_model
  = Some (Demo.fit_course_similarity (map content_text Demo.course_rows)) /\
  evaluate (fun l n => firstn n l) (fun l => l) Demo.single_course_model
           (Some ["S1000"; "S1001"; "S1002"])
  = Ok (EvalError "No suitable test students found").
Proof.
  split; [reflexivity |].
  apply (evaluator_skips_short_histories (fun l n => firstn n l) (fun l => l)
           Demo.single_course_model (Some ["S1000"; "S1001"; "S1002"]) _ eq_refl).
  intros sid [<- | [<- | [<- | []]]]; vm_compute; lia.
Defined.

(** ** The fused pipeline, stage by stage *)

Lemma first_row_In {A : Type} (key : A -> string) (v : string) (df : list A)
    (r : A) :
  first_row key v df = Ok r -> In r df /\ key r = v.
Proof.
  unfold first_row. destruct (find _ df) as [x |] eqn:E; [| discriminate].
  intros H. injection H as <-. apply find_some in E.
  destruct E as (Hin & Hk). apply String.eqb_eq in Hk. now split.
Qed.

Lemma first_row_found {A : Type} (key : A -> string) (df : list A) (r : A) :
  In r df -> exists r', first_row key (key r) df = Ok r'.
Proof.
  intros Hin. unfold first_row.
  destruct (find (fun x => String.eqb (key x) (key r)) df) as [x |] eqn:E.
  - now exists x.
  - exfalso. apply (find_none _ _ E) in Hin.
    rewrite String.eqb_refl in Hin. discriminate.
Qed.

Lemma first_row_missing {A : Type} (key : A -> string) (v : string) (df : list A) :
  ~ In v (map key df) -> first_row key v df = Raise IndexError.
Proof.
  intros Hno. unfold first_row.
  destruct (find (fun x => String.eqb (key x) v) df) as [x |] eqn:E;
    [| reflexivity].
  exfalso. apply find_some in E. destruct E as (Hin & Hk).
  apply String.eqb_eq in Hk. apply Hno. rewrite <- Hk. now apply in_map.
Qed.

Lemma format_results_In (courses : list Course) (top : list (string * Q)) :
  forall recs, format_results courses top = Ok recs ->
  forall rec, In rec recs ->
  exists cid score c,
    In (cid, score) top /\ first_row course_id cid courses = Ok c /\
    rec = course_info c cid score.
Proof.
  induction top as [| (cid, score) rest IH]; intros recs H rec Hin.
  - injection H as <-. contradiction.
  - cbn [format_results] in H.
    destruct (first_row course_id cid courses) as [c |] eqn:Ec; [| discriminate].
    cbn [bind] in H.
    destruct (format_results courses rest) as [tail |]; [| discriminate].
    cbn [bind] in H. injection H as <-.
    destruct Hin as [<- | Hin].
    + exists cid, score, c. repeat split; [now left | assumption].
    + destruct (IH tail eq_refl rec Hin) as (cid' & s' & c' & Hin' & Hc' & ->).
      exists cid', s', c'. repeat split; [now right | assumption].
Qed.

Lemma filtered_courses_In (courses : list Course) (taken : list string)
    (difficulty_filter : option string) (year : Z) (recs : list (string * Q)) :
  forall out, filtered_courses courses taken difficulty_filter year recs = Ok out ->
  forall cid final, In (cid, final) out ->
  exists score c,
    In (cid, score) recs /\ first_row course_id cid courses = Ok c /\
    passes_difficulty difficulty_filter c = true /\
    prereq_met c taken = true /\
    final = final_score c year score.
Proof.
  induction recs as [| (cid0, score0) rest IH]; intros out H cid final Hin.
  - injection H as <-. contradiction.
  - cbn [filtered_courses] in H.
    destruct (first_row course_id cid0 courses) as [c |] eqn:Ec; [| discriminate].
    cbn [bind] in H.
    destruct (filtered_courses courses taken difficulty_filter year rest)
      as [tail |]; [| discriminate].
    cbn [bind] in H.
    assert (Htail : In (cid, final) tail ->
                    exists score c0,
                      In (cid, score) ((cid0, score0) :: rest) /\
                      first_row course_id cid courses = Ok c0 /\
                      passes_difficulty difficulty_filter c0 = true /\
                      prereq_met c0 taken = true /\
                      final = final_score c0 year score).
    { intros Ht. destruct (IH tail eq_refl cid final Ht) as (s & c0 & Hs & Hrest).
      exists s, c0. split; [now right | assumption]. }
    destruct (passes_difficulty difficulty_filter c) eqn:Ed;
      [destruct (prereq_met c taken) eqn:Ep |];
      injection H as <-; auto.
    destruct Hin as [E | Hin]; [| auto].
    injection E as <- <-. exists score0, c.
    repeat split; auto. now left.
Qed.

Section PipelineFacts.

Variable cosine_similarity : list Q -> list Q -> Q.

(** The intermediate values of a call that returns, and what every
    returned record is: a course that passed the filters, ranked under its
    final score. *)
Lemma returned_course (m : Model) (sid : string) (limit : Z)
    (exclude_taken : bool) (difficulty_filter : option string)
    (recs : list Recommendation) :
  recommend_courses cosine_similarity m sid limit exclude_taken difficulty_filter
  = Ok recs ->
  exists sim student content top,
    course_similarity_matrix m = Some sim /\
    first_row student_id sid (students_df m) = Ok student /\
    _get_content_based_recommendations (courses_df m) (course_history_df m)
      (query_similarity m) sim sid (topic_interests student)
      (s_department student) (limit * 2) = Ok content /\
    top_courses cosine_similarity m sid limit exclude_taken difficulty_filter
    = Ok top /\
    forall rec, In rec recs ->
    exists c score,
      first_row course_id (courseId rec) (courses_df m) = Ok c /\
      In (courseId rec, score)
         (all_recs (taken_courses m sid exclude_taken) content
            (collaborative_recs cosine_similarity m sid limit)) /\
      passes_difficulty difficulty_filter c = true /\
      prereq_met c (taken_courses m sid exclude_taken) = true /\
      In (courseId rec, final_score c (year_of_study student) score) top /\
      rec = course_info c (courseId rec)
              (final_score c (year_of_study student) score).
Proof.
  intros H. unfold recommend_courses in H.
  destruct (top_courses cosine_similarity m sid limit exclude_taken
              difficulty_filter) as [top |] eqn:Etop; [| discriminate].
  cbn [bind] in H. rename H into Hfmt.
  pose proof Etop as Ht. unfold top_courses in Ht.
  destruct (course_similarity_matrix m) as [sim |] eqn:Esim; [| discriminate].
  destruct (first_row student_id sid (students_df m)) as [st |] eqn:Est;
    [| discriminate].
  cbn [bind] in Ht.
  destruct (_get_content_based_recommendations _ _ _ _ _ _ _ _)
    as [content |] eqn:Ec; [| discriminate].
  cbn [bind] in Ht.
  destruct (filtered_courses _ _ _ _ _) as [filtered |] eqn:Ef; [| discriminate].
  cbn [bind] in Ht. injection Ht as Ht. subst top.
  exists sim, st, content, (take limit (sorted_desc filtered)).
  do 4 (split; [first [reflexivity | assumption] |]).
  intros rec Hin.
  destruct (format_results_In _ _ _ Hfmt rec Hin)
    as (cid & final & c & Htop & Hc & Hrec).
  assert (Hcid : courseId rec = cid) by (rewrite Hrec; reflexivity).
  pose proof (ranked_In _ _ _ Htop) as Hf.
  destruct (filtered_courses_In _ _ _ _ _ _ Ef cid final Hf)
    as (score & c' & Hall & Hc' & Hd & Hp & Hfinal).
  assert (c' = c) by congruence. subst c' final.
  rewrite Hcid. exists c, score. repeat split; assumption.
Qed.

(** C2: with [exclude_taken] true, every prerequisite of a returned course
    is a course of the student's history; with [exclude_taken] false the
    set checked against is empty and a returned course has no
    prerequisite, so every course with at least one is excluded. *)
Theorem prerequisites_met (m : Model) (sid : string) (limit : Z)
    (exclude_taken : bool) (difficulty_filter : option string)
    (recs : list Recommendation) :
  recommend_courses cosine_similarity m sid limit exclude_taken difficulty_filter
  = Ok recs ->
  forall rec, In rec recs ->
  exists c,
    first_row course_id (courseId rec) (courses_df m) = Ok c /\
    (exclude_taken = true ->
     incl (prerequisites c)
          (map h_course_id
             (filter (fun r => String.eqb (h_student_id r) sid)
                     (course_history_df m)))) /\
    (exclude_taken = false ->
     taken_courses m sid exclude_taken = [] /\ prerequisites c = []).
Proof.
  intros H rec Hin.
  destruct (returned_course _ _ _ _ _ _ H)
    as (sim & st & content & top & _ & _ & _ & _ & Hall).
  destruct (Hall rec Hin) as (c & score & Hc & _ & _ & Hp & _).
  exists c. split; [assumption |].
  unfold prereq_met in Hp. rewrite forallb_forall in Hp.
  split; intros ->; cbn [taken_courses] in Hp.
  - intros p Hpin. apply mem_In. now apply Hp.
  - split; [reflexivity |].
    destruct (prerequisites c) as [| p t]; [reflexivity |].
    specialize (Hp p (or_introl eq_refl)). discriminate.
Qed.

End PipelineFacts.

Lemma prerequisites_met_witness :
  recommend_courses Demo.cosine Demo.model "S1000" 5 true None
  = Ok [course_info
          (mkCourse "COURSE1001" "CS 201" "Data Structures" "Computer Science"
             "This advanced level course covers data structures."
             ["COURSE1000"] 200 "advanced" 3 ["data"; "algorithms"]
             (Some 5) ((7 # 10) * 1 / 2 + (3 # 10) * 5 / 5))
          "COURSE1001" (73 # 100)] /\
  exists c,
    first_row course_id "COURSE1001" (courses_df Demo.model) = Ok c /\
    incl (prerequisites c) ["COURSE1000"; "COURSE1002"].
Proof.
  assert (H : recommend_courses Demo.cosine Demo.model "S1000" 5 true None
              = Ok [course_info
                      (mkCourse "COURSE1001" "CS 201" "Data Structures"
                         "Computer Science"
                         "This advanced level course covers data structures."
                         ["COURSE1000"] 200 "advanced" 3 ["data"; "algorithms"]
                         (Some 5) ((7 # 10) * 1 / 2 + (3 # 10) * 5 / 5))
                      "COURSE1001" (73 # 100)])
    by (vm_compute; reflexivity).
  split; [exact H |].
  destruct (prerequisites_met Demo.cosine Demo.model "S1000" 5 true None _ H
              _ (or_introl eq_refl)) as (c & Hc & Hincl & _).
  exists c. split; [exact Hc | exact (Hincl eq_refl)].
Defined.

(** ** Insertion-ordered dictionaries *)

Lemma dict_get_set (d : list (string * Q)) (k k' : string) (v : Q) :
  dict_get (dict_set d k v) k' = if String.eqb k k' then Some v else dict_get d k'.
Proof.
  induction d as [| (k0, v0) t IH]; simpl.
  - reflexivity.
  - destruct (String.eqb k0 k) eqn:E0; simpl.
    + apply String.eqb_eq in E0. subst k0.
      destruct (String.eqb k k'); reflexivity.
    + rewrite IH. destruct (String.eqb k0 k') eqn:E1; [| reflexivity].
      apply String.eqb_eq in E1. subst k0.
      rewrite String.eqb_sym, E0. reflexivity.
Qed.

Lemma dict_get_incr (d : list (string * Q)) (k k' : string) (v : Q) :
  dict_get (dict_incr d k v) k'
  = if String.eqb k k' then option_map (fun x => x + v) (dict_get d k')
    else dict_get d k'.
Proof.
  induction d as [| (k0, v0) t IH]; simpl.
  - destruct (String.eqb k k'); reflexivity.
  - destruct (String.eqb k0 k) eqn:E0; simpl.
    + apply String.eqb_eq in E0. subst k0.
      destruct (String.eqb k k'); reflexivity.
    + rewrite IH. destruct (String.eqb k0 k') eqn:E1; [| reflexivity].
      apply String.eqb_eq in E1. subst k0.
      rewrite String.eqb_sym, E0. reflexivity.
Qed.

Lemma dict_get_None (d : list (string * Q)) (k : string) :
  dict_get d k = None <-> ~ In k (map fst d).
Proof.
  induction d as [| (k0, v0) t IH]; simpl; [tauto |].
  destruct (String.eqb k0 k) eqn:E.
  - apply String.eqb_eq in E. split; [discriminate | tauto].
  - apply String.eqb_neq in E. rewrite IH. tauto.
Qed.

Lemma dict_get_In (d : list (string * Q)) (k : string) (v : Q) :
  dict_get d k = Some v -> In (k, v) d.
Proof.
  induction d as [| (k0, v0) t IH]; simpl; [discriminate |].
  destruct (String.eqb k0 k) eqn:E.
  - apply String.eqb_eq in E. intros H. injection H as <-. subst. now left.
  - intros H. right. now apply IH.
Qed.

Lemma dict_In_get (d : list (string * Q)) (k : string) (v : Q) :
  NoDup (map fst d) -> In (k, v) d -> dict_get d k = Some v.
Proof.
  induction d as [| (k0, v0) t IH]; simpl; [tauto |].
  intros Hnd Hin. inversion Hnd as [| ? ? Hk0 Ht]; subst.
  destruct Hin as [E | Hin].
  - injection E as -> ->. now rewrite String.eqb_refl.
  - destruct (String.eqb k0 k) eqn:E; [| now apply IH].
    apply String.eqb_eq in E. subst k0.
    exfalso. apply Hk0. change k with (fst (k, v)). now apply in_map.
Qed.

Lemma dict_incr_keys (d : list (string * Q)) (k : string) (v : Q) :
  map fst (dict_incr d k v) = map fst d.
Proof.
  induction d as [| (k0, v0) t IH]; simpl; [reflexivity |].
  destruct (String.eqb k0 k); simpl; [reflexivity | now rewrite IH].
Qed.

Lemma dict_set_keys (d : list (string * Q)) (k : string) (v : Q) :
  map fst (dict_set d k v)
  = if mem k (map fst d) then map fst d else (map fst d ++ [k])%list.
Proof.
  induction d as [| (k0, v0) t IH]; simpl; [reflexivity |].
  rewrite (String.eqb_sym k k0).
  destruct (String.eqb k0 k); simpl; [reflexivity |].
  rewrite IH. unfold mem. destruct (existsb _ _); reflexivity.
Qed.

Lemma dict_set_NoDup (d : list (string * Q)) (k : string) (v : Q) :
  NoDup (map fst d) -> NoDup (map fst (dict_set d k v)).
Proof.
  intros H. rewrite dict_set_keys.
  destruct (mem k (map fst d)) eqn:E; [assumption |].
  apply mem_false in E.
  apply (Permutation_NoDup (l := k :: map fst d)).
  - apply Permutation_cons_append.
  - now constructor.
Qed.

Lemma dict_incr_NoDup (d : list (string * Q)) (k : string) (v : Q) :
  NoDup (map fst d) -> NoDup (map fst (dict_incr d k v)).
Proof. now rewrite dict_incr_keys. Qed.

(** ** The fusion of the two candidate lists *)

Lemma merge_content_get (taken : list string) (content : list (string * Q)) :
  NoDup (map fst content) ->
  forall acc cid,
    dict_get
      (fold_left
         (fun acc p => if mem (fst p) taken then acc
                       else dict_set acc (fst p) (snd p * (4 # 10)))
         content acc) cid
    = match (if mem cid taken then None else dict_get content cid) with
      | Some s => Some (s * (4 # 10))
      | None => dict_get acc cid
      end.
Proof.
  induction content as [| (k, s) t IH]; intros Hnd acc cid.
  - simpl. destruct (mem cid taken); reflexivity.
  - inversion Hnd as [| ? ? Hk Ht]; subst.
    cbn [fold_left fst snd]. rewrite (IH Ht). cbn [dict_get].
    destruct (String.eqb k cid) eqn:E.
    + apply String.eqb_eq in E. subst cid.
      assert (Hnone : dict_get t k = None) by now apply dict_get_None.
      rewrite Hnone.
      destruct (mem k taken); [reflexivity |].
      now rewrite dict_get_set, String.eqb_refl.
    + destruct (mem cid taken); [| destruct (dict_get t cid); [reflexivity |]];
        (destruct (mem k taken); [reflexivity |]);
        now rewrite dict_get_set, E.
Qed.

Lemma merge_collaborative_get (taken : list string) (collab : list (string * Q)) :
  NoDup (map fst collab) ->
  forall acc cid,
    dict_get (merge_collaborative taken collab acc) cid
    = match (if mem cid taken then None else dict_get collab cid) with
      | Some b => Some (match dict_get acc cid with
                        | Some a => a + b * (6 # 10)
                        | None => b * (6 # 10)
                        end)
      | None => dict_get acc cid
      end.
Proof.
  unfold merge_collaborative.
  induction collab as [| (k, s) t IH]; intros Hnd acc cid.
  - simpl. destruct (mem cid taken); reflexivity.
  - inversion Hnd as [| ? ? Hk Ht]; subst.
    cbn [fold_left fst snd]. rewrite (IH Ht). cbn [dict_get].
    destruct (String.eqb k cid) eqn:E.
    + apply String.eqb_eq in E. subst cid.
      assert (Hnone : dict_get t k = None) by now apply dict_get_None.
      rewrite Hnone.
      destruct (mem k taken); [reflexivity |].
      destruct (dict_get acc k) as [a |] eqn:Ea.
      * rewrite dict_get_incr, String.eqb_refl, Ea. reflexivity.
      * now rewrite dict_get_set, String.eqb_refl.
    + assert (Hacc : dict_get
                       (if mem k taken then acc
                        else match dict_get acc k with
                             | Some _ => dict_incr acc k (s * (6 # 10))
                             | None => dict_set acc k (s * (6 # 10))
                             end) cid = dict_get acc cid).
      { destruct (mem k taken); [reflexivity |].
        destruct (dict_get acc k);
          [rewrite dict_get_incr | rewrite dict_get_set]; now rewrite E. }
      rewrite Hacc. reflexivity.
Qed.

Lemma all_recs_get (taken : list string) (content collab : list (string * Q))
    (cid : string) :
  NoDup (map fst content) -> NoDup (map fst collab) ->
  dict_get (all_recs taken content collab) cid
  = if mem cid taken then None else merged_score content collab cid.
Proof.
  intros Hc Hb. unfold all_recs, merge_content, merged_score.
  rewrite (merge_collaborative_get taken collab Hb),
          (merge_content_get taken content Hc).
  destruct (mem cid taken); [reflexivity |].
  destruct (dict_get content cid), (dict_get collab cid); reflexivity.
Qed.

Lemma all_recs_NoDup (taken : list string) (content collab : list (string * Q)) :
  NoDup (map fst (all_recs taken content collab)).
Proof.
  unfold all_recs, merge_collaborative, merge_content.
  assert (H0 : NoDup (map fst (@nil (string * Q)))) by constructor.
  revert H0. generalize (@nil (string * Q)) as acc.
  induction content as [| p t IH]; intros acc Hacc; cbn [fold_left].
  - revert acc Hacc. induction collab as [| q u IHu]; intros acc Hacc;
      cbn [fold_left]; [assumption |].
    apply IHu. destruct (mem (fst q) taken); [assumption |].
    destruct (dict_get acc (fst q));
      [now apply dict_incr_NoDup | now apply dict_set_NoDup].
  - apply IH. destruct (mem (fst p) taken); [assumption |].
    now apply dict_set_NoDup.
Qed.

(** ** Keys of the two candidate lists *)

Lemma course_scores_keys (courses : list Course) :
  forall scores pairs,
    course_scores courses scores = Ok pairs ->
    map fst pairs = map course_id courses.
Proof.
  induction courses as [| c t IH]; intros scores pairs H.
  - injection H as <-. reflexivity.
  - cbn [course_scores] in H. destruct scores as [| s scores']; [discriminate |].
    destruct (course_scores t scores') as [rest |] eqn:E; [| discriminate].
    cbn [bind] in H. injection H as <-. simpl. f_equal. now apply (IH scores').
Qed.

Lemma content_keys (courses : list Course) (history : list HistoryRecord)
    (qsim : string -> list Q) (sim : list (list Q)) (sid : string)
    (interests : list string) (dept : string) (limit : Z)
    (content : list (string * Q)) :
  _get_content_based_recommendations courses history qsim sim sid interests
    dept limit = Ok content ->
  exists pairs,
    map fst pairs = map course_id courses /\
    content = take limit (sorted_desc pairs).
Proof.
  unfold _get_content_based_recommendations.
  destruct (add_taken_similarities _ _ _ _) as [scores |]; [| discriminate].
  cbn [bind].
  destruct (course_scores courses scores) as [pairs |] eqn:E; [| discriminate].
  cbn [bind]. intros H. injection H as <-.
  exists pairs. split; [now apply course_scores_keys in E | reflexivity].
Qed.

Lemma content_keys_NoDup (courses : list Course) (history : list HistoryRecord)
    (qsim : string -> list Q) (sim : list (list Q)) (sid : string)
    (interests : list string) (dept : string) (limit : Z)
    (content : list (string * Q)) :
  NoDup (map course_id courses) ->
  _get_content_based_recommendations courses history qsim sim sid interests
    dept limit = Ok content ->
  NoDup (map fst content).
Proof.
  intros Hnd H. apply content_keys in H. destruct H as (pairs & Hk & ->).
  apply ranked_keys_NoDup. now rewrite Hk.
Qed.

Section FusionFacts.

Variable cosine_similarity : list Q -> list Q -> Q.

Lemma add_neighbour_NoDup (mx : Matrix) (sid : string)
    (scores : list (string * Q)) (neighbour : string * Q) :
  NoDup (map fst scores) -> NoDup (map fst (add_neighbour mx sid scores neighbour)).
Proof.
  destruct neighbour as (other_id, similarity). unfold add_neighbour.
  revert scores. induction (columns mx) as [| course t IH]; intros scores H;
    cbn [fold_left]; [assumption |].
  apply IH.
  destruct (Qltb 3 (cell mx other_id course) && Qeq_bool (cell mx sid course) 0);
    [| assumption].
  apply dict_incr_NoDup.
  destruct (dict_get scores course); [assumption | now apply dict_set_NoDup].
Qed.

Lemma collaborative_keys_NoDup (m : Model) (sid : string) (limit : Z) :
  NoDup (map fst (collaborative_recs cosine_similarity m sid limit)).
Proof.
  unfold collaborative_recs.
  destruct (mem sid (index (student_course_matrix m)) && _); [| constructor].
  unfold _get_collaborative_recommendations.
  destruct (negb _); [constructor |].
  apply ranked_keys_NoDup.
  assert (H0 : NoDup (map fst (@nil (string * Q)))) by constructor.
  revert H0. generalize (@nil (string * Q)) as acc.
  induction (take 10 _) as [| n t IH]; intros acc Hacc; cbn [fold_left];
    [assumption |].
  apply IH. now apply add_neighbour_NoDup.
Qed.

(** C1: in a call of [recommend_courses] that returns, over a course table
    with distinct identifiers, the merged score of every candidate is 0.4
    times its content-based score plus 0.6 times its collaborative score,
    each term present exactly when the course is in the respective list (taken
    courses are no candidates); and every returned course is ranked under
    merged_score*0.6 + (popularity_score*0.2)*0.2 + level_match*0.2, where
    level_match is 1.2 if level // 100 equals the student's year_of_study
    and 1.0 otherwise; its matchScore is computed from that final score. *)
Theorem fused_and_final_scores (m : Model) (sid : string) (limit : Z)
    (exclude_taken : bool) (difficulty_filter : option string)
    (recs : list Recommendation) :
  NoDup (map course_id (courses_df m)) ->
  recommend_courses cosine_similarity m sid limit exclude_taken difficulty_filter
  = Ok recs ->
  exists sim student content top,
    course_similarity_matrix m = Some sim /\
    first_row student_id sid (students_df m) = Ok student /\
    _get_content_based_recommendations (courses_df m) (course_history_df m)
      (query_similarity m) sim sid (topic_interests student)
      (s_department student) (limit * 2) = Ok content /\
    top_courses cosine_similarity m sid limit exclude_taken difficulty_filter
    = Ok top /\
    let taken := taken_courses m sid exclude_taken in
    let collab := collaborative_recs cosine_similarity m sid limit in
    (forall cid,
       dict_get (all_recs taken content collab) cid
       = if mem cid taken then None
         else match dict_get content cid, dict_get collab cid with
              | Some a, Some b => Some (a * (4 # 10) + b * (6 # 10))
              | Some a, None => Some (a * (4 # 10))
              | None, Some b => Some (b * (6 # 10))
              | None, None => None
              end) /\
    forall rec, In rec recs ->
    exists c merged,
      first_row course_id (courseId rec) (courses_df m) = Ok c /\
      dict_get (all_recs taken content collab) (courseId rec) = Some merged /\
      let level_match :=
        if (level c / 100 =? year_of_study student)%Z then 12 # 10 else 1 in
      let final :=
        merged * (6 # 10) + popularity_score c * (2 # 10) * (2 # 10)
        + level_match * (2 # 10) in
      In (courseId rec, final) top /\
      matchScore rec = Z.min (round (final * 100)) 100.
Proof.
  intros Hnd H.
  destruct (returned_course cosine_similarity _ _ _ _ _ _ H)
    as (sim & st & content & top & Hsim & Hst & Hcontent & Htop & Hall).
  exists sim, st, content, top.
  do 4 (split; [assumption |]).
  intros taken collab.
  assert (Hc : NoDup (map fst content))
    by (eapply content_keys_NoDup; eassumption).
  assert (Hb : NoDup (map fst collab)) by apply collaborative_keys_NoDup.
  split.
  - intros cid. now apply all_recs_get.
  - intros rec Hin.
    destruct (Hall rec Hin) as (c & merged & Hrow & Hin' & _ & _ & Hrank & Hrec).
    exists c, merged. split; [assumption |]. split.
    + apply dict_In_get; [apply all_recs_NoDup | assumption].
    + cbv zeta. split; [exact Hrank |].
      rewrite Hrec at 1. reflexivity.
Qed.

End FusionFacts.

Lemma fused_and_final_scores_witness :
  NoDup (map course_id (courses_df Demo.model)) /\
  exists recs,
    recommend_courses Demo.cosine Demo.model "S1000" 5 true None = Ok recs /\
    exists top,
      top_courses Demo.cosine Demo.model "S1000" 5 true None = Ok top.
Proof.
  assert (Hnd : NoDup (map course_id (courses_df Demo.model))).
  { simpl. repeat constructor; simpl; intuition discriminate. }
  split; [exact Hnd |].
  destruct (recommend_courses Demo.cosine Demo.model "S1000" 5 true None)
    as [recs |] eqn:E; [| vm_compute in E; discriminate].
  exists recs. split; [reflexivity |].
  destruct (fused_and_final_scores Demo.cosine Demo.model "S1000" 5 true None
              recs Hnd E) as (_ & _ & _ & top & _ & _ & _ & Htop & _).
  now exists top.
Defined.

(** ** Signs of the scores *)

Lemma add_halved_nonneg (scores row : list Q) :
  Forall (fun x => 0 <= x) scores -> Forall (fun x => 0 <= x) row ->
  forall out, add_halved scores row = Ok out -> Forall (fun x => 0 <= x) out.
Proof.
  intros Hs. revert row. induction Hs as [| s t Hs0 Ht IH]; intros row Hr out H.
  - destruct row; [| discriminate]. injection H as <-. constructor.
  - destruct row as [| x row']; [discriminate |].
    inversion Hr as [| ? ? Hx Hrow]; subst.
    cbn [add_halved] in H.
    destruct (add_halved t row') as [rest |] eqn:E; [| discriminate].
    cbn [bind] in H. injection H as <-.
    constructor; [nra | now apply (IH row')].
Qed.

Lemma iadd_halved_nonneg (scores row : list Q) :
  Forall (fun x => 0 <= x) scores -> Forall (fun x => 0 <= x) row ->
  forall out, iadd_halved scores row = Ok out -> Forall (fun x => 0 <= x) out.
Proof.
  intros Hs Hr out H. unfold iadd_halved in H.
  destruct row as [| x [| y row']];
    try (now apply (add_halved_nonneg scores _ Hs Hr)).
  injection H as <-. inversion Hr as [| ? ? Hx _]; subst.
  apply Forall_map. revert Hs. apply Forall_impl. intros a Ha. nra.
Qed.

Lemma add_taken_similarities_nonneg (courses : list Course) (sim : list (list Q))
    (taken : list string) :
  Forall (Forall (fun x => 0 <= x)) sim ->
  forall scores out,
    Forall (fun x => 0 <= x) scores ->
    add_taken_similarities courses sim taken scores = Ok out ->
    Forall (fun x => 0 <= x) out.
Proof.
  intros Hsim. induction taken as [| cid rest IH]; intros scores out Hs H.
  - injection H as <-. assumption.
  - cbn [add_taken_similarities] in H.
    destruct (course_index courses cid) as [i |]; [| now apply (IH scores)].
    destruct (nth_error sim i) as [row |] eqn:Erow; [| discriminate].
    destruct (iadd_halved scores row) as [scores' |] eqn:E; [| discriminate].
    cbn [bind] in H. apply (IH scores'); [| assumption].
    apply (iadd_halved_nonneg scores row); try assumption.
    rewrite Forall_forall in Hsim. apply Hsim. now apply nth_error_In in Erow.
Qed.

Lemma course_scores_nonneg (courses : list Course) :
  forall scores pairs,
    Forall (fun x => 0 <= x) scores ->
    course_scores courses scores = Ok pairs ->
    Forall (fun p => 0 <= snd p) pairs.
Proof.
  induction courses as [| c t IH]; intros scores pairs Hs H.
  - injection H as <-. constructor.
  - cbn [course_scores] in H. destruct scores as [| s scores']; [discriminate |].
    inversion Hs; subst.
    destruct (course_scores t scores') as [rest |] eqn:E; [| discriminate].
    cbn [bind] in H. injection H as <-.
    constructor; [assumption | now apply (IH scores')].
Qed.

Lemma ranked_Forall {A : Type} (P : A * Q -> Prop) (k : Z) (l : list (A * Q)) :
  Forall P l -> Forall P (take k (sorted_desc l)).
Proof.
  rewrite !Forall_forall. intros H x Hx. apply H. now apply ranked_In in Hx.
Qed.

Lemma content_scores_nonneg (courses : list Course) (history : list HistoryRecord)
    (qsim : string -> list Q) (sim : list (list Q)) (sid : string)
    (interests : list string) (dept : string) (limit : Z)
    (content : list (string * Q)) :
  (forall q, Forall (fun x => 0 <= x) (qsim q)) ->
  Forall (Forall (fun x => 0 <= x)) sim ->
  _get_content_based_recommendations courses history qsim sim sid interests
    dept limit = Ok content ->
  Forall (fun p => 0 <= snd p) content.
Proof.
  intros Hq Hsim. unfold _get_content_based_recommendations.
  destruct (add_taken_similarities _ _ _ _) as [scores |] eqn:Es; [| discriminate].
  cbn [bind].
  destruct (course_scores courses scores) as [pairs |] eqn:Ep; [| discriminate].
  cbn [bind]. intros H. injection H as <-.
  apply ranked_Forall.
  apply (course_scores_nonneg courses scores); [| assumption].
  apply (add_taken_similarities_nonneg _ _ _ Hsim _ _ (Hq _) Es).
Qed.

Lemma dict_set_nonneg (d : list (string * Q)) (k : string) (v : Q) :
  Forall (fun p => 0 <= snd p) d -> 0 <= v ->
  Forall (fun p => 0 <= snd p) (dict_set d k v).
Proof.
  intros H Hv. induction H as [| (k0, v0) t H0 Ht IH]; simpl.
  - repeat constructor. assumption.
  - destruct (String.eqb k0 k); constructor; assumption.
Qed.

Lemma dict_incr_nonneg (d : list (string * Q)) (k : string) (v : Q) :
  Forall (fun p => 0 <= snd p) d -> 0 <= v ->
  Forall (fun p => 0 <= snd p) (dict_incr d k v).
Proof.
  intros H Hv. induction H as [| (k0, v0) t H0 Ht IH]; simpl.
  - constructor.
  - destruct (String.eqb k0 k); constructor; try assumption.
    simpl in *. lra.
Qed.

Lemma masked_positive (u v : list Q) :
  Forall (fun x => 0 < x) (masked (common_mask u v) u) /\
  Forall (fun x => 0 < x) (masked (common_mask u v) v).
Proof.
  revert v. induction u as [| x u' IH]; intros [| y v']; simpl;
    try (split; constructor).
  unfold masked, common_mask in *. cbn [combine map filter fst snd].
  destruct (IH v') as (Hu & Hv).
  destruct (Qltb 0 x) eqn:Ex; destruct (Qltb 0 y) eqn:Ey;
    cbn [andb fst map snd]; try (split; assumption).
  apply Qltb_true in Ex. apply Qltb_true in Ey.
  split; constructor; assumption.
Qed.

Lemma all_recs_nonneg (taken : list string) (content collab : list (string * Q)) :
  Forall (fun p => 0 <= snd p) content ->
  Forall (fun p => 0 <= snd p) collab ->
  Forall (fun p => 0 <= snd p) (all_recs taken content collab).
Proof.
  intros Hc Hb. unfold all_recs, merge_collaborative, merge_content.
  assert (H0 : Forall (fun p : string * Q => 0 <= snd p) []) by constructor.
  revert H0. generalize (@nil (string * Q)) as acc.
  induction Hc as [| p t Hp Ht IH]; intros acc Hacc; cbn [fold_left].
  - revert acc Hacc. induction Hb as [| q u Hq Hu IHu]; intros acc Hacc;
      cbn [fold_left]; [assumption |].
    apply IHu. destruct (mem (fst q) taken); [assumption |].
    destruct (dict_get acc (fst q));
      [apply dict_incr_nonneg | apply dict_set_nonneg]; try assumption; nra.
  - apply IH. destruct (mem (fst p) taken); [assumption |].
    apply dict_set_nonneg; [assumption | nra].
Qed.

Lemma final_score_nonneg (c : Course) (year : Z) (score : Q) :
  0 <= score -> 0 <= popularity_score c -> 2 # 10 <= final_score c year score.
Proof.
  intros Hs Hp. unfold final_score, level_match.
  destruct (level c / 100 =? year)%Z; nra.
Qed.

Lemma round_floor (x : Q) : (Qfloor x <= round x)%Z.
Proof.
  unfold round.
  destruct (Qltb _ _); [lia |].
  destruct (Qltb _ _); [lia |].
  destruct (Z.even _); lia.
Qed.



Section ScoreRange.

Variable cosine_similarity : list Q -> list Q -> Q.

(** The cosine of two vectors with positive entries is not negative. *)
Hypothesis cosine_nonneg :
  forall u v, Forall (fun x => 0 < x) u -> Forall (fun x => 0 < x) v ->
              0 <= cosine_similarity u v.




End ScoreRange.

(** The example campus meets the assumptions on signs. *)

Lemma demo_dot_nonneg (u v : list Q) :
  Forall (fun x => 0 < x) u -> Forall (fun x => 0 < x) v -> 0 <= Demo.Qdot u v.
Proof.
  intros Hu. revert v. unfold Demo.Qdot.
  induction Hu as [| x u' Hx Hu' IH]; intros v Hv.
  - discriminate.
  - destruct Hv as [| y v' Hy Hv']; [discriminate |].
    cbn [combine map fst snd]. rewrite Qsum_cons.
    specialize (IH v' Hv'). cbv beta in Hx, Hy.
    assert (0 <= x * y) by (apply Qmult_le_0_compat; lra).
    lra.
Qed.

Lemma demo_cosine_nonneg (u v : list Q) :
  Forall (fun x => 0 < x) u -> Forall (fun x => 0 < x) v -> 0 <= Demo.cosine u v.
Proof.
  intros Hu Hv. unfold Demo.cosine.
  set (n := Demo.Qsqrt (Demo.Qdot u u * Demo.Qdot v v)).
  destruct (Qeq_bool n 0) eqn:E; [discriminate |].
  assert (Hn : 0 <= n).
  { unfold n, Demo.Qsqrt.
    generalize (Demo.Qdot u u * Demo.Qdot v v) as q. intros q.
    unfold Qle. cbn [Qnum Qden].
    pose proof (Z.sqrt_nonneg (Qnum q * Z.pos (Qden q))). lia. }
  assert (Hne : ~ n == 0).
  { intros Hz. apply Qeq_bool_iff in Hz. congruence. }
  assert (Hpos : 0 < n).
  { destruct (Qlt_le_dec 0 n) as [Hlt | Hle]; [assumption |].
    exfalso. apply Hne. lra. }
  apply Qle_shift_div_l; [assumption |].
  pose proof (demo_dot_nonneg u v Hu Hv). lra.
Qed.

Lemma demo_query_nonneg (q : string) :
  Forall (fun x => 0 <= x) (query_similarity Demo.model q).
Proof.
  cbn [query_similarity Demo.model train]. unfold Demo.fit_query_similarity.
  destruct (String.eqb q _); repeat constructor; discriminate.
Qed.

Lemma demo_similarity_nonneg (sim : list (list Q)) :
  course_similarity_matrix Demo.model = Some sim ->
  Forall (Forall (fun x => 0 <= x)) sim.
Proof.
  intros H. injection H as <-. repeat constructor; discriminate.
Qed.

Lemma demo_popularity_nonneg (c : Course) :
  In c (courses_df Demo.model) -> 0 <= popularity_score c.
Proof.
  intros [<- | [<- | [<- | []]]]; vm_compute; discriminate.
Qed.

(** ** The rating field of a trained model *)

Lemma trained_course (csv_has_avg_rating : bool) (rows : list CourseRow)
    (history : list HistoryRecord) (c : Course) :
  In c (_calculate_course_popularity csv_has_avg_rating rows history) ->
  avg_rating c = avg_rating_column csv_has_avg_rating history (course_id c).
Proof.
  unfold _calculate_course_popularity. rewrite in_map_iff.
  intros (r & <- & _). reflexivity.
Qed.

Lemma avg_rating_column_filled (csv_has_avg_rating : bool)
    (history : list HistoryRecord) (cid : string) :
  exists v, avg_rating_column csv_has_avg_rating history cid = Some v /\
            (course_ratings history cid = [] -> v = 0).
Proof.
  unfold avg_rating_column, merged_avg_rating.
  destruct csv_has_avg_rating; [now exists 0 |].
  destruct (course_ratings history cid) as [| x t]; cbn [fillna].
  - now exists 0.
  - eexists. split; [reflexivity | discriminate].
Qed.

Section RatingField.

Variable cosine_similarity : list Q -> list Q -> Q.
Variable fit_query_similarity : list string -> string -> list Q.
Variable fit_course_similarity : list string -> list (list Q).

(** C9, as the code behaves: after training, the rating field of every
    returned record is a number, never null, and it is the number 0 for a
    course that no history record rates. *)
Theorem unrated_course_rating_is_zero (csv_has_avg_rating : bool)
    (rows : list CourseRow) (students : list Student)
    (history : list HistoryRecord) (sid : string) (limit : Z)
    (exclude_taken : bool) (difficulty_filter : option string)
    (recs : list Recommendation) :
  recommend_courses cosine_similarity
    (train fit_query_similarity fit_course_similarity csv_has_avg_rating
       rows students history)
    sid limit exclude_taken difficulty_filter = Ok recs ->
  forall rec, In rec recs ->
    rating rec <> None /\
    (course_ratings history (courseId rec) = [] -> rating rec = Some 0).
Proof.
  intros H rec Hin.
  destruct (returned_course cosine_similarity _ _ _ _ _ _ H)
    as (sim & st & content & top & _ & _ & _ & _ & Hall).
  destruct (Hall rec Hin) as (c & score & Hrow & _ & _ & _ & _ & Hrec).
  apply first_row_In in Hrow. destruct Hrow as (Hc & Hid).
  cbn [courses_df train] in Hc. apply trained_course in Hc.
  destruct (avg_rating_column_filled csv_has_avg_rating history (course_id c))
    as (v & Hv & Hzero).
  rewrite Hid in Hzero.
  assert (Hr : rating rec = Some v).
  { rewrite Hrec. cbn [rating course_info]. rewrite Hc, Hv. reflexivity. }
  rewrite Hr. split; [discriminate |].
  intros Hnone. now rewrite (Hzero Hnone).
Qed.

End RatingField.

Lemma unrated_course_rating_is_zero_witness :
  exists recs rec,
    recommend_courses Demo.cosine Demo.model "S1002" 5 true None = Ok recs /\
    In rec recs /\
    courseId rec = "COURSE1002" /\
    course_ratings Demo.history "COURSE1002" = [] /\
    rating rec = Some 0.
Proof.
  destruct (recommend_courses Demo.cosine Demo.model "S1002" 5 true None)
    as [recs |] eqn:E; [| vm_compute in E; discriminate].
  assert (Hrecs : exists rec, In rec recs /\ courseId rec = "COURSE1002").
  { vm_compute in E. injection E as <-. eexists. split; [now left | reflexivity]. }
  destruct Hrecs as (rec & Hin & Hid).
  exists recs, rec. repeat split; try assumption.
  destruct (unrated_course_rating_is_zero Demo.cosine Demo.fit_query_similarity
              Demo.fit_course_similarity false Demo.course_rows Demo.students
              Demo.history "S1002" 5 true None recs E rec Hin) as (_ & Hzero).
  apply Hzero. rewrite Hid. reflexivity.
Defined.

(** The record for the unrated calculus course carries the number 0. *)
Example unrated_course_rating_demo :
  option_map (map (fun rec => (courseId rec, rating rec)))
    (match recommend_courses Demo.cosine Demo.model "S1002" 5 true None with
     | Ok recs => Some recs
     | Raise _ => None
     end)
  = Some [("COURSE1002", Some 0); ("COURSE1000", Some (8 # 2))].
Proof. vm_compute. reflexivity. Qed.

(** ** Students the tables do not know *)

Lemma course_scores_ok (courses : list Course) :
  forall scores,
    (List.length courses <= List.length scores)%nat ->
    exists pairs, course_scores courses scores = Ok pairs.
Proof.
  induction courses as [| c t IH]; intros scores Hlen.
  - now exists [].
  - destruct scores as [| s scores']; simpl in Hlen; [lia |].
    destruct (IH scores') as (rest & E); [lia |].
    cbn [course_scores]. rewrite E. cbn [bind]. eexists. reflexivity.
Qed.

Lemma fold_keys_incl {A : Type} (f : list (string * Q) -> A -> list (string * Q))
    (key : A -> string) (l : list A) :
  (forall acc a k, In k (map fst (f acc a)) -> k = key a \/ In k (map fst acc)) ->
  forall acc k,
    In k (map fst (fold_left f l acc)) ->
    In k (map key l) \/ In k (map fst acc).
Proof.
  intros Hf. induction l as [| a t IH]; intros acc k H; cbn [fold_left] in H.
  - now right.
  - destruct (IH _ _ H) as [Ht | Ha]; [left; now right |].
    destruct (Hf _ _ _ Ha) as [-> | Hacc]; [left; now left | now right].
Qed.

Lemma dict_set_key (d : list (string * Q)) (k k' : string) (v : Q) :
  In k' (map fst (dict_set d k v)) -> k' = k \/ In k' (map fst d).
Proof.
  rewrite dict_set_keys. destruct (mem k (map fst d)); [now right |].
  rewrite in_app_iff. simpl. intuition.
Qed.

Lemma all_recs_keys (taken : list string) (content collab : list (string * Q))
    (k : string) :
  In k (map fst (all_recs taken content collab)) ->
  In k (map fst content) \/ In k (map fst collab).
Proof.
  unfold all_recs, merge_collaborative, merge_content. intros H.
  apply (fold_keys_incl _ fst) in H.
  - destruct H as [H | H]; [now right |].
    apply (fold_keys_incl _ fst) in H; [destruct H as [H | []]; now left |].
    intros acc p k0 Hk. destruct (mem (fst p) taken); [now right |].
    now apply dict_set_key in Hk.
  - intros acc p k0 Hk. destruct (mem (fst p) taken); [now right |].
    destruct (dict_get acc (fst p)).
    + rewrite dict_incr_keys in Hk. now right.
    + now apply dict_set_key in Hk.
Qed.

Lemma filtered_courses_ok (courses : list Course) (taken : list string)
    (difficulty_filter : option string) (year : Z) (recs : list (string * Q)) :
  (forall k, In k (map fst recs) -> In k (map course_id courses)) ->
  exists out, filtered_courses courses taken difficulty_filter year recs = Ok out.
Proof.
  induction recs as [| (cid, score) rest IH]; intros Hk.
  - now exists [].
  - destruct IH as (tail & Et); [intros k Hin; apply Hk; now right |].
    assert (Hc : In cid (map course_id courses)) by (apply Hk; now left).
    apply in_map_iff in Hc. destruct Hc as (c0 & <- & Hc0).
    destruct (first_row_found course_id courses c0 Hc0) as (c & Ec).
    cbn [filtered_courses]. rewrite Ec, Et. cbn [bind].
    destruct (passes_difficulty difficulty_filter c);
      [destruct (prereq_met c taken) |]; eexists; reflexivity.
Qed.

Lemma format_results_ok (courses : list Course) (top : list (string * Q)) :
  (forall k, In k (map fst top) -> In k (map course_id courses)) ->
  exists recs, format_results courses top = Ok recs.
Proof.
  induction top as [| (cid, score) rest IH]; intros Hk.
  - now exists [].
  - destruct IH as (tail & Et); [intros k Hin; apply Hk; now right |].
    assert (Hc : In cid (map course_id courses)) by (apply Hk; now left).
    apply in_map_iff in Hc. destruct Hc as (c0 & <- & Hc0).
    destruct (first_row_found course_id courses c0 Hc0) as (c & Ec).
    cbn [format_results]. rewrite Ec, Et. cbn [bind]. eexists. reflexivity.
Qed.

(** The unknown student of the example: the call raises. *)
Lemma unknown_student_raises :
  course_similarity_matrix Demo.model <> None /\
  ~ In "S9999" (map student_id (students_df Demo.model)) /\
  recommend_courses Demo.cosine Demo.model "S9999" 5 true None = Raise IndexError /\
  forall recs,
    recommend_courses Demo.cosine Demo.model "S9999" 5 true None <> Ok recs.
Proof.
  split; [discriminate |]. split.
  - simpl. intuition discriminate.
  - split; [reflexivity | discriminate].
Qed.

Lemma no_history_no_records (history : list HistoryRecord) (sid : string) :
  (forall r, In r history -> h_student_id r <> sid) ->
  filter (fun r => String.eqb (h_student_id r) sid) history = [].
Proof.
  intros H. induction history as [| r t IH]; [reflexivity |].
  cbn [filter].
  assert (E : String.eqb (h_student_id r) sid = false)
    by (apply String.eqb_neq, H; now left).
  rewrite E. apply IH. intros r' Hr'. apply H. now right.
Qed.

Section StudentLookup.

Variable cosine_similarity : list Q -> list Q -> Q.
Variable fit_query_similarity : list string -> string -> list Q.
Variable fit_course_similarity : list string -> list (list Q).

Lemma content_recs_without_history (courses : list Course)
    (history : list HistoryRecord) (qsim : string -> list Q)
    (sim : list (list Q)) (sid : string) (interests : list string)
    (dept : string) (limit : Z) :
  (forall r, In r history -> h_student_id r <> sid) ->
  (forall q, (List.length courses <= List.length (qsim q))%nat) ->
  exists content,
    _get_content_based_recommendations courses history qsim sim sid interests
      dept limit = Ok content.
Proof.
  intros Hno Hlen. unfold _get_content_based_recommendations, student_courses.
  rewrite (no_history_no_records history sid Hno).
  cbn [map unique add_taken_similarities bind].
  destruct (course_scores_ok courses _ (Hlen (query_text interests dept)))
    as (pairs & ->).
  cbn [bind]. eexists. reflexivity.
Qed.

(** C3, amended: after training, a call of [recommend_courses] for a
    student identifier that is not in the students table raises IndexError
    at the lookup of the student, whatever the other arguments.  It is a
    student of the table without any history record who has an empty taken
    set and no collaborative candidate: for such a student (and a content
    index with an entry per course) the call returns, and every returned
    course comes from the content-based list. *)
Theorem student_lookup (csv_has_avg_rating : bool) (rows : list CourseRow)
    (students : list Student) (history : list HistoryRecord) (sid : string)
    (limit : Z) (exclude_taken : bool) (difficulty_filter : option string) :
  let m := train fit_query_similarity fit_course_similarity csv_has_avg_rating
             rows students history in
  (~ In sid (map student_id students) ->
   recommend_courses cosine_similarity m sid limit exclude_taken difficulty_filter
   = Raise IndexError) /\
  (In sid (map student_id students) ->
   (forall r, In r history -> h_student_id r <> sid) ->
   (forall q, (List.length rows
               <= List.length (fit_query_similarity (map content_text rows) q))%nat) ->
   taken_courses m sid exclude_taken = [] /\
   collaborative_recs cosine_similarity m sid limit = [] /\
   exists student content recs,
     first_row student_id sid students = Ok student /\
     _get_content_based_recommendations (courses_df m) history
       (query_similarity m) (fit_course_similarity (map content_text rows)) sid
       (topic_interests student) (s_department student) (limit * 2)
     = Ok content /\
     recommend_courses cosine_similarity m sid limit exclude_taken
       difficulty_filter = Ok recs /\
     forall rec, In rec recs -> In (courseId rec) (map fst content)).
Proof.
  intros m. split.
  - intros Hno. unfold recommend_courses, top_courses.
    cbn [course_similarity_matrix students_df m train].
    rewrite (first_row_missing student_id sid students Hno). reflexivity.
  - intros Hin Hnohist Hlen.
    assert (Htaken : taken_courses m sid exclude_taken = []).
    { unfold taken_courses. destruct exclude_taken; [| reflexivity].
      cbn [course_history_df m train].
      now rewrite (no_history_no_records history sid Hnohist). }
    assert (Hcollab : collaborative_recs cosine_similarity m sid limit = []).
    { apply collaborative_recs_guarded. left. apply mem_false.
      cbn [student_course_matrix m train]. intros Hidx.
      apply index_has_history in Hidx. destruct Hidx as (r & Hr & Hs).
      now apply (Hnohist r Hr). }
    split; [assumption |]. split; [assumption |].
    apply in_map_iff in Hin. destruct Hin as (st0 & <- & Hst0).
    destruct (first_row_found student_id students st0 Hst0) as (st & Est).
    assert (Hlen' : forall q, (List.length (courses_df m)
                               <= List.length (query_similarity m q))%nat).
    { intros q. cbn [courses_df query_similarity m train].
      unfold _calculate_course_popularity. rewrite length_map. apply Hlen. }
    destruct (content_recs_without_history (courses_df m) history
                (query_similarity m) (fit_course_similarity (map content_text rows))
                (student_id st0) (topic_interests st) (s_department st)
                (limit * 2) Hnohist Hlen') as (content & Ec).
    assert (Hkeys : forall k, In k (map fst content) ->
                              In k (map course_id (courses_df m))).
    { destruct (content_keys _ _ _ _ _ _ _ _ _ Ec) as (pairs & Hk & ->).
      intros k Hk'. rewrite <- Hk. apply in_map_iff in Hk'.
      destruct Hk' as (p & <- & Hp). apply in_map. now apply ranked_In in Hp. }
    assert (Hall : forall k,
               In k (map fst (all_recs [] content [])) -> In k (map fst content)).
    { intros k Hk. apply all_recs_keys in Hk. destruct Hk as [Hk | []]. exact Hk. }
    destruct (filtered_courses_ok (courses_df m) [] difficulty_filter
                (year_of_study st) (all_recs [] content []))
      as (filtered & Ef); [intros k Hk; auto |].
    assert (Htop : forall k,
               In k (map fst (take limit (sorted_desc filtered))) ->
               In k (map course_id (courses_df m))).
    { intros k Hk. apply in_map_iff in Hk. destruct Hk as ((cid, f) & <- & Hp).
      apply ranked_In in Hp.
      destruct (filtered_courses_In _ _ _ _ _ _ Ef cid f Hp)
        as (s & c & Hs & _). cbn [fst].
      apply Hkeys, Hall. change cid with (fst (cid, s)). now apply in_map. }
    destruct (format_results_ok (courses_df m) _ Htop) as (recs & Er).
    assert (Hrecs : recommend_courses cosine_similarity m (student_id st0) limit
                      exclude_taken difficulty_filter = Ok recs).
    { unfold recommend_courses, top_courses.
      cbn [course_similarity_matrix students_df course_history_df m train].
      rewrite Est. cbn [bind].
      change (_calculate_course_popularity csv_has_avg_rating rows history)
        with (courses_df m).
      change (fit_query_similarity (map content_text rows))
        with (query_similarity m).
      rewrite Ec. cbn [bind].
      rewrite Hcollab, Htaken, Ef. cbn [bind]. exact Er. }
    exists st, content, recs. do 3 (split; [assumption |]).
    intros rec Hrec.
    destruct (returned_course cosine_similarity _ _ _ _ _ _ Hrecs)
      as (sim' & st' & content' & top' & Hs' & Hst' & Hc' & _ & Hret).
    destruct (Hret rec Hrec) as (c & score & _ & Hmerged & _).
    cbn [course_similarity_matrix students_df course_history_df m train] in Hs', Hst', Hc'.
    injection Hs' as <-.
    assert (st' = st) by congruence. subst st'.
    change (_calculate_course_popularity csv_has_avg_rating rows history)
      with (courses_df m) in Hc'.
    change (fit_query_similarity (map content_text rows))
      with (query_similarity m) in Hc'.
    assert (content' = content) by congruence. subst content'.
    rewrite Hcollab, Htaken in Hmerged.
    apply Hall. change (courseId rec) with (fst (courseId rec, score)).
    now apply in_map.
Qed.

End StudentLookup.

Lemma student_lookup_witness :
  ~ In "S9999" (map student_id Demo.students) /\
  recommend_courses Demo.cosine Demo.model "S9999" 5 true None = Raise IndexError.
Proof.
  assert (H : ~ In "S9999" (map student_id Demo.students))
    by (simpl; intuition discriminate).
  split; [exact H |].
  exact (proj1 (student_lookup Demo.cosine Demo.fit_query_similarity
                  Demo.fit_course_similarity false Demo.course_rows
                  Demo.students Demo.history "S9999" 5 true None) H).
Defined.

(** ** The course x course similarity matrix *)

Section ContentSimilarityFacts.

Import Floats ContentSimilarity.
Local Open Scope float_scope.










End ContentSimilarityFacts.

(** ** Popularity after training *)

Lemma Qmax_ge_r (x y : Q) : y <= Qmax x y.
Proof.
  unfold Qmax. destruct (Qltb x y) eqn:E; [lra |].
  now apply Qltb_false in E.
Qed.

Lemma enrollment_count_nonneg (history : list HistoryRecord) (cid : string) :
  0 <= enrollment_count history cid.
Proof.
  unfold enrollment_count, Qle. simpl. lia.
Qed.

Lemma course_ratings_nonneg (history : list HistoryRecord) (cid : string) :
  (forall r x, In r history -> student_rating r = Some x -> 0 <= x) ->
  Forall (fun x => 0 <= x) (course_ratings history cid).
Proof.
  intros H. induction history as [| r t IH]; [constructor |].
  assert (IH' : Forall (fun x => 0 <= x) (course_ratings t cid)).
  { apply IH. intros r' x Hr'. apply H. now right. }
  cbn [course_ratings].
  destruct (student_rating r) as [x |] eqn:E; [| assumption].
  destruct (String.eqb (h_course_id r) cid); [| assumption].
  constructor; [| assumption]. apply (H r x); [now left | assumption].
Qed.

Lemma mean_nonneg (l : list Q) : Forall (fun x => 0 <= x) l -> 0 <= mean l.
Proof.
  intros H. unfold mean. destruct l as [| x t].
  - discriminate.
  - apply Qle_shift_div_l.
    + unfold Qlt. simpl. lia.
    + pose proof (Qsum_nonneg _ H). lra.
Qed.

(** With ratings that are not negative, no trained popularity score is
    negative. *)
Lemma trained_popularity_nonneg (csv_has_avg_rating : bool)
    (rows : list CourseRow) (history : list HistoryRecord) (c : Course) :
  (forall r x, In r history -> student_rating r = Some x -> 0 <= x) ->
  In c (_calculate_course_popularity csv_has_avg_rating rows history) ->
  0 <= popularity_score c.
Proof.
  intros Hr. unfold _calculate_course_popularity. rewrite in_map_iff.
  intros (r & <- & _). cbn [popularity_score].
  assert (Hmax : 1 <= enrollment_max rows history) by apply Qmax_ge_r.
  assert (Havg : 0 <= or_zero (avg_rating_column csv_has_avg_rating history
                                 (row_course_id r))).
  { unfold avg_rating_column, merged_avg_rating.
    destruct csv_has_avg_rating; [discriminate |].
    pose proof (course_ratings_nonneg history (row_course_id r) Hr) as Hc.
    destruct (course_ratings history (row_course_id r)) as [| x t];
      [discriminate |].
    cbn [fillna or_zero]. now apply mean_nonneg. }
  pose proof (enrollment_count_nonneg history (row_course_id r)) as He.
  assert (H1 : 0 <= (7 # 10) * enrollment_count history (row_course_id r)
                    / enrollment_max rows history).
  { apply Qle_shift_div_l; [lra | nra]. }
  assert (H2 : 0 <= (3 # 10) * or_zero (avg_rating_column csv_has_avg_rating
                                          history (row_course_id r)) / rating_max).
  { apply Qle_shift_div_l; [reflexivity | nra]. }
  lra.
Qed.

(** * Further properties of the engine *)

(** ** Order and size of the ranked lists *)

Lemma insert_desc_descending {A : Type} (x : A * Q) (l : list (A * Q)) :
  descending l -> descending (insert_desc x l).
Proof.
  unfold descending. induction l as [| y t IH]; intros H; simpl.
  - repeat constructor.
  - apply StronglySorted_inv in H. destruct H as (Ht & Hy).
    destruct (Qltb (snd x) (snd y)) eqn:E.
    + apply Qltb_true in E. constructor; [now apply IH |].
      rewrite Forall_forall in *. intros z Hz.
      apply (Permutation_in _ (insert_desc_perm x t)) in Hz.
      destruct Hz as [<- | Hz]; [lra | now apply Hy].
    + apply Qltb_false in E. constructor; [now constructor |].
      constructor; [assumption |].
      rewrite Forall_forall in *. intros z Hz. specialize (Hy z Hz). lra.
Qed.

Lemma sorted_desc_descending {A : Type} (l : list (A * Q)) :
  descending (sorted_desc l).
Proof.
  induction l as [| x t IH]; simpl; [constructor |].
  now apply insert_desc_descending.
Qed.

Lemma firstn_descending {A : Type} (n : nat) (l : list (A * Q)) :
  descending l -> descending (firstn n l).
Proof.
  unfold descending. revert l. induction n as [| n IH]; intros [| y t] H; simpl;
    try constructor.
  - apply IH. now apply StronglySorted_inv in H.
  - apply StronglySorted_inv in H. destruct H as (_ & Hy).
    rewrite Forall_forall in *. intros z Hz. apply Hy.
    now apply firstn_incl in Hz.
Qed.

Lemma ranked_descending {A : Type} (k : Z) (l : list (A * Q)) :
  descending (take k (sorted_desc l)).
Proof.
  destruct (take_prefix k (sorted_desc l)) as (n & ->).
  apply firstn_descending, sorted_desc_descending.
Qed.

Lemma sorted_desc_length {A : Type} (l : list (A * Q)) :
  List.length (sorted_desc l) = List.length l.
Proof. apply Permutation_length, sorted_desc_perm. Qed.

Lemma take_length {A : Type} (k : Z) (l : list A) :
  (0 <= k)%Z -> List.length (take k l) = Nat.min (Z.to_nat k) (List.length l).
Proof.
  intros Hk. unfold take.
  destruct (k <? 0)%Z eqn:E; [apply Z.ltb_lt in E; lia |].
  apply length_firstn.
Qed.

Lemma course_scores_length (courses : list Course) :
  forall scores pairs,
    course_scores courses scores = Ok pairs ->
    List.length pairs = List.length courses.
Proof.
  intros scores pairs H. apply course_scores_keys in H.
  rewrite <- (length_map fst pairs), H. apply length_map.
Qed.

(** X1: the content-based list is ranked: scores never increase along it, every
    entry is a course of the course table, and for a limit that is not
    negative it holds min(limit, number of courses) entries. *)
Theorem content_recommendations_ranked (courses : list Course)
    (history : list HistoryRecord) (qsim : string -> list Q)
    (sim : list (list Q)) (sid : string) (interests : list string)
    (dept : string) (limit : Z) (content : list (string * Q)) :
  _get_content_based_recommendations courses history qsim sim sid interests
    dept limit = Ok content ->
  descending content /\
  (forall cid score, In (cid, score) content -> In cid (map course_id courses)) /\
  ((0 <= limit)%Z ->
   List.length content = Nat.min (Z.to_nat limit) (List.length courses)).
Proof.
  intros H. unfold _get_content_based_recommendations in H.
  destruct (add_taken_similarities _ _ _ _) as [scores |]; [| discriminate].
  cbn [bind] in H.
  destruct (course_scores courses scores) as [pairs |] eqn:E; [| discriminate].
  cbn [bind] in H. injection H as <-.
  split; [apply ranked_descending |]. split.
  - intros cid score Hin. apply ranked_In in Hin.
    rewrite <- (course_scores_keys _ _ _ E).
    change cid with (fst (cid, score)). now apply in_map.
  - intros Hk. rewrite take_length by assumption.
    now rewrite sorted_desc_length, (course_scores_length _ _ _ E).
Qed.

Lemma content_recommendations_ranked_witness :
  exists content,
    _get_content_based_recommendations (courses_df Demo.model) Demo.history
      (query_similarity Demo.model)
      (Demo.fit_course_similarity (map content_text Demo.course_rows))
      "S1000" ["programming"; "data"] "Computer Science" 2 = Ok content /\
    descending content /\ List.length content = 2%nat.
Proof.
  destruct (_get_content_based_recommendations (courses_df Demo.model)
              Demo.history (query_similarity Demo.model)
              (Demo.fit_course_similarity (map content_text Demo.course_rows))
              "S1000" ["programming"; "data"] "Computer Science" 2)
    as [content |] eqn:E; [| vm_compute in E; discriminate].
  exists content. split; [reflexivity |].
  destruct (content_recommendations_ranked _ _ _ _ _ _ _ _ _ E)
    as (Hd & _ & Hlen).
  split; [exact Hd | apply Hlen; lia].
Defined.

(** ** What [recommend_courses] returns *)

Lemma all_recs_not_taken (taken : list string) (content collab : list (string * Q))
    (k : string) :
  In k (map fst (all_recs taken content collab)) -> mem k taken = false.
Proof.
  unfold all_recs, merge_collaborative, merge_content.
  assert (H0 : forall k0, In k0 (map fst (@nil (string * Q))) ->
                          mem k0 taken = false) by (intros k0 []).
  revert H0. generalize (@nil (string * Q)) as acc.
  induction content as [| p t IH]; intros acc Hacc; cbn [fold_left].
  - revert acc Hacc. induction collab as [| q u IHu]; intros acc Hacc;
      cbn [fold_left]; [now apply Hacc |].
    apply IHu. intros k0 Hk0.
    destruct (mem (fst q) taken) eqn:E; [now apply Hacc |].
    destruct (dict_get acc (fst q)).
    + rewrite dict_incr_keys in Hk0. now apply Hacc.
    + apply dict_set_key in Hk0. destruct Hk0 as [-> | Hk0];
        [assumption | now apply Hacc].
  - apply IH. intros k0 Hk0.
    destruct (mem (fst p) taken) eqn:E; [now apply Hacc |].
    apply dict_set_key in Hk0. destruct Hk0 as [-> | Hk0];
      [assumption | now apply Hacc].
Qed.

Lemma format_results_shape (courses : list Course) (top : list (string * Q)) :
  forall recs, format_results courses top = Ok recs ->
    map courseId recs = map fst top /\
    map matchScore recs = map (fun p => match_score (snd p)) top.
Proof.
  induction top as [| (cid, score) rest IH]; intros recs H.
  - injection H as <-. now split.
  - cbn [format_results] in H.
    destruct (first_row course_id cid courses) as [c |]; [| discriminate].
    cbn [bind] in H.
    destruct (format_results courses rest) as [tail |]; [| discriminate].
    cbn [bind] in H. injection H as <-.
    destruct (IH tail eq_refl) as (Hid & Hms).
    split; simpl; f_equal; assumption.
Qed.

Lemma filtered_courses_keys (courses : list Course) (taken : list string)
    (difficulty_filter : option string) (year : Z) (recs : list (string * Q)) :
  forall out, filtered_courses courses taken difficulty_filter year recs = Ok out ->
    (forall k, In k (map fst out) -> In k (map fst recs)) /\
    (NoDup (map fst recs) -> NoDup (map fst out)).
Proof.
  induction recs as [| (cid, score) rest IH]; intros out H.
  - injection H as <-. split; [tauto | intros; constructor].
  - cbn [filtered_courses] in H.
    destruct (first_row course_id cid courses) as [c |]; [| discriminate].
    cbn [bind] in H.
    destruct (filtered_courses courses taken difficulty_filter year rest)
      as [tail |]; [| discriminate].
    cbn [bind] in H. destruct (IH tail eq_refl) as (Hincl & Hnd).
    assert (Hskip : (forall k, In k (map fst tail) ->
                               In k (map fst ((cid, score) :: rest))) /\
                    (NoDup (map fst ((cid, score) :: rest)) ->
                     NoDup (map fst tail))).
    { split; [intros k Hk; right; now apply Hincl |].
      intros Hn. inversion Hn; subst. now apply Hnd. }
    destruct (passes_difficulty difficulty_filter c);
      [destruct (prereq_met c taken) |]; injection H as <-; try exact Hskip.
    split.
    + intros k [<- | Hk]; [now left | right; now apply Hincl].
    + intros Hn. inversion Hn as [| ? ? Hcid Hrest]; subst. simpl.
      constructor; [| now apply Hnd]. intros Hk. apply Hcid. now apply Hincl.
Qed.

Lemma round_monotone (x y : Q) : x <= y -> (round x <= round y)%Z.
Proof.
  intros Hxy. pose proof (Qfloor_resp_le _ _ Hxy) as Hf.
  pose proof (Qfloor_le x) as Hx1. pose proof (Qlt_floor x) as Hx2.
  pose proof (Qfloor_le y) as Hy1. pose proof (Qlt_floor y) as Hy2.
  assert (Hrx : (round x <= Qfloor x + 1)%Z).
  { unfold round. destruct (Qltb _ _); [lia |].
    destruct (Qltb _ _); [lia |]. destruct (Z.even _); lia. }
  destruct (Z.eq_dec (Qfloor x) (Qfloor y)) as [E | Hne].
  - unfold round. rewrite <- E.
    destruct (Qltb (x - inject_Z (Qfloor x)) (1 # 2)) eqn:Ex1.
    + destruct (Qltb (y - inject_Z (Qfloor x)) (1 # 2)); [lia |].
      destruct (Qltb (1 # 2) (y - inject_Z (Qfloor x))); [lia |].
      destruct (Z.even (Qfloor x)); lia.
    + apply Qltb_false in Ex1.
      assert (Ey1 : Qltb (y - inject_Z (Qfloor x)) (1 # 2) = false)
        by (apply Qltb_false; lra).
      rewrite Ey1.
      destruct (Qltb (1 # 2) (x - inject_Z (Qfloor x))) eqn:Ex2.
      * apply Qltb_true in Ex2.
        assert (Ey2 : Qltb (1 # 2) (y - inject_Z (Qfloor x)) = true)
          by (apply Qltb_true; lra).
        rewrite Ey2. lia.
      * destruct (Qltb (1 # 2) (y - inject_Z (Qfloor x)));
          destruct (Z.even (Qfloor x)); lia.
  - pose proof (round_floor y). lia.
Qed.

Lemma match_score_monotone (x y : Q) :
  x <= y -> (match_score x <= match_score y)%Z.
Proof.
  intros H. unfold match_score.
  assert (round (x * 100) <= round (y * 100))%Z by (apply round_monotone; lra).
  lia.
Qed.

Lemma descending_match_scores (top : list (string * Q)) :
  descending top ->
  StronglySorted (fun a b => (b <= a)%Z) (map (fun p => match_score (snd p)) top).
Proof.
  unfold descending. induction 1 as [| p t Ht IH Hp]; simpl; constructor;
    [assumption |].
  rewrite Forall_forall in *. intros z Hz. apply in_map_iff in Hz.
  destruct Hz as (q & <- & Hq). apply match_score_monotone. now apply Hp.
Qed.

Section OutputFacts.

Variable cosine_similarity : list Q -> list Q -> Q.

Lemma pipeline_stages (m : Model) (sid : string) (limit : Z)
    (exclude_taken : bool) (difficulty_filter : option string)
    (recs : list Recommendation) :
  recommend_courses cosine_similarity m sid limit exclude_taken difficulty_filter
  = Ok recs ->
  exists sim student content filtered,
    course_similarity_matrix m = Some sim /\
    first_row student_id sid (students_df m) = Ok student /\
    _get_content_based_recommendations (courses_df m) (course_history_df m)
      (query_similarity m) sim sid (topic_interests student)
      (s_department student) (limit * 2) = Ok content /\
    filtered_courses (courses_df m) (taken_courses m sid exclude_taken)
      difficulty_filter (year_of_study student)
      (all_recs (taken_courses m sid exclude_taken) content
         (collaborative_recs cosine_similarity m sid limit)) = Ok filtered /\
    format_results (courses_df m) (take limit (sorted_desc filtered)) = Ok recs.
Proof.
  unfold recommend_courses, top_courses.
  destruct (course_similarity_matrix m) as [sim |]; [| discriminate].
  destruct (first_row student_id sid (students_df m)) as [st |];
    [| discriminate].
  cbn [bind].
  destruct (_get_content_based_recommendations _ _ _ _ _ _ _ _)
    as [content |] eqn:Ec; [| discriminate].
  cbn [bind].
  destruct (filtered_courses _ _ _ _ _) as [filtered |] eqn:Ef; [| discriminate].
  cbn [bind]. intros Hfmt.
  exists sim, st, content, filtered. repeat split; assumption.
Qed.

(** X2: with [exclude_taken] true, no course of the student's history is
    returned. *)
Theorem taken_courses_never_returned (m : Model) (sid : string) (limit : Z)
    (difficulty_filter : option string) (recs : list Recommendation) :
  recommend_courses cosine_similarity m sid limit true difficulty_filter
  = Ok recs ->
  forall rec r,
    In rec recs -> In r (course_history_df m) -> h_student_id r = sid ->
    h_course_id r <> courseId rec.
Proof.
  intros H rec r Hrec Hr Hsid Heq.
  destruct (returned_course cosine_similarity _ _ _ _ _ _ H)
    as (sim & st & content & top & _ & _ & _ & _ & Hall).
  destruct (Hall rec Hrec) as (c & score & _ & Hmerged & _).
  assert (Hk : In (courseId rec)
                  (map fst (all_recs (taken_courses m sid true) content
                              (collaborative_recs cosine_similarity m sid limit)))).
  { change (courseId rec) with (fst (courseId rec, score)). now apply in_map. }
  apply all_recs_not_taken, mem_false in Hk. apply Hk.
  cbn [taken_courses]. rewrite <- Heq. apply in_map.
  apply filter_In. split; [assumption | now apply String.eqb_eq].
Qed.

(** X3: with a difficulty filter, every returned record carries exactly that
    difficulty tier. *)
Theorem difficulty_filter_respected (m : Model) (sid : string) (limit : Z)
    (exclude_taken : bool) (d : string) (recs : list Recommendation) :
  recommend_courses cosine_similarity m sid limit exclude_taken (Some d)
  = Ok recs ->
  forall rec, In rec recs -> rec_difficulty rec = d.
Proof.
  intros H rec Hrec.
  destruct (returned_course cosine_similarity _ _ _ _ _ _ H)
    as (sim & st & content & top & _ & _ & _ & _ & Hall).
  destruct (Hall rec Hrec) as (c & score & _ & _ & Hd & _ & _ & Heq).
  rewrite Heq. cbn [rec_difficulty course_info].
  now apply String.eqb_eq in Hd.
Qed.

(** X4: no course is returned twice, and for a limit that is not negative at
    most [limit] records are returned. *)
Theorem recommendations_distinct_and_bounded (m : Model) (sid : string)
    (limit : Z) (exclude_taken : bool) (difficulty_filter : option string)
    (recs : list Recommendation) :
  recommend_courses cosine_similarity m sid limit exclude_taken difficulty_filter
  = Ok recs ->
  NoDup (map courseId recs) /\
  ((0 <= limit)%Z -> (Z.of_nat (List.length recs) <= limit)%Z).
Proof.
  intros H.
  destruct (pipeline_stages _ _ _ _ _ _ H)
    as (sim & st & content & filtered & _ & _ & _ & Hf & Hfmt).
  destruct (format_results_shape _ _ _ Hfmt) as (Hids & _).
  split.
  - rewrite Hids. apply ranked_keys_NoDup.
    apply (filtered_courses_keys _ _ _ _ _ _ Hf). apply all_recs_NoDup.
  - intros Hk.
    assert (Hlen : List.length recs
                   = List.length (take limit (sorted_desc filtered))).
    { rewrite <- (length_map courseId), Hids. apply length_map. }
    rewrite Hlen, take_length by assumption. lia.
Qed.

(** X5: the records come out in order of match score: along the returned list
    [matchScore] never increases. *)
Theorem match_scores_never_increase (m : Model) (sid : string) (limit : Z)
    (exclude_taken : bool) (difficulty_filter : option string)
    (recs : list Recommendation) :
  recommend_courses cosine_similarity m sid limit exclude_taken difficulty_filter
  = Ok recs ->
  StronglySorted (fun a b => (b <= a)%Z) (map matchScore recs).
Proof.
  intros H.
  destruct (pipeline_stages _ _ _ _ _ _ H)
    as (sim & st & content & filtered & _ & _ & _ & _ & Hfmt).
  destruct (format_results_shape _ _ _ Hfmt) as (_ & Hms).
  rewrite Hms. apply descending_match_scores, ranked_descending.
Qed.

End OutputFacts.

Lemma taken_courses_never_returned_witness :
  exists recs,
    recommend_courses Demo.cosine Demo.model "S1000" 5 true None = Ok recs /\
    forall rec, In rec recs ->
      courseId rec <> "COURSE1000" /\ courseId rec <> "COURSE1002".
Proof.
  destruct (recommend_courses Demo.cosine Demo.model "S1000" 5 true None)
    as [recs |] eqn:E; [| vm_compute in E; discriminate].
  exists recs. split; [reflexivity |].
  intros rec Hrec. split; intros Heq; symmetry in Heq; revert Heq.
  - apply (taken_courses_never_returned Demo.cosine Demo.model "S1000" 5 None recs E rec
             (mkHistory "S1000" "COURSE1000" "Fall 2024" "A" 4 (Some 4)) Hrec);
      [simpl; tauto | reflexivity].
  - apply (taken_courses_never_returned Demo.cosine Demo.model "S1000" 5 None recs E rec
             (mkHistory "S1000" "COURSE1002" "Fall 2024" "C" 2 None) Hrec);
      [simpl; tauto | reflexivity].
Defined.

Lemma difficulty_filter_respected_witness :
  exists recs,
    recommend_courses Demo.cosine Demo.model "S1002" 5 true (Some "introductory")
    = Ok recs /\
    recs <> [] /\
    forall rec, In rec recs -> rec_difficulty rec = "introductory".
Proof.
  destruct (recommend_courses Demo.cosine Demo.model "S1002" 5 true
              (Some "introductory")) as [recs |] eqn:E;
    [| vm_compute in E; discriminate].
  exists recs. split; [reflexivity |]. split.
  - vm_compute in E. injection E as <-. discriminate.
  - exact (difficulty_filter_respected Demo.cosine Demo.model "S1002" 5 true "introductory"
             recs E).
Defined.

Lemma recommendations_distinct_and_bounded_witness :
  exists recs,
    recommend_courses Demo.cosine Demo.model "S1002" 1 true None = Ok recs /\
    NoDup (map courseId recs) /\ (Z.of_nat (List.length recs) <= 1)%Z.
Proof.
  destruct (recommend_courses Demo.cosine Demo.model "S1002" 1 true None)
    as [recs |] eqn:E; [| vm_compute in E; discriminate].
  exists recs. split; [reflexivity |].
  destruct (recommendations_distinct_and_bounded Demo.cosine Demo.model "S1002" 1 true None
              recs E) as (Hnd & Hlen).
  split; [exact Hnd | apply Hlen; lia].
Defined.

Lemma match_scores_never_increase_witness :
  exists recs,
    recommend_courses Demo.cosine Demo.model "S1002" 5 true None = Ok recs /\
    map matchScore recs = [41; 28]%Z /\
    StronglySorted (fun a b => (b <= a)%Z) (map matchScore recs).
Proof.
  destruct (recommend_courses Demo.cosine Demo.model "S1002" 5 true None)
    as [recs |] eqn:E; [| vm_compute in E; discriminate].
  exists recs. split; [reflexivity |]. split.
  - vm_compute in E. injection E as <-. reflexivity.
  - exact (match_scores_never_increase Demo.cosine Demo.model "S1002" 5 true None recs E).
Defined.

(** ** Collaborative candidates *)

Section CandidateFacts.

Variable cosine_similarity : list Q -> list Q -> Q.

Lemma student_similarities_keys (mx : Matrix) (sid : string) (p : string * Q) :
  In p (student_similarities cosine_similarity mx sid) ->
  In (fst p) (index mx) /\ fst p <> sid.
Proof.
  unfold student_similarities. rewrite in_flat_map.
  intros (o & Ho & Hp).
  destruct (String.eqb o sid) eqn:E; [contradiction |].
  apply String.eqb_neq in E.
  destruct (2 <=? _)%nat; [| contradiction].
  destruct Hp as [<- | []]. now split.
Qed.

Lemma add_neighbour_candidates (mx : Matrix) (sid : string)
    (scores : list (string * Q)) (neighbour : string * Q) :
  In (fst neighbour) (index mx) -> fst neighbour <> sid ->
  (forall k, In k (map fst scores) -> liked_unseen mx sid k) ->
  forall k, In k (map fst (add_neighbour mx sid scores neighbour)) ->
            liked_unseen mx sid k.
Proof.
  destruct neighbour as (other_id, similarity). cbn [fst].
  intros Hidx Hne. unfold add_neighbour.
  assert (Hcols : incl (columns mx) (columns mx)) by apply incl_refl.
  revert scores Hcols. generalize (columns mx) at 1 3 as cols.
  induction cols as [| course t IH]; intros scores Hcols Hacc k Hk;
    cbn [fold_left] in Hk; [now apply Hacc |].
  apply (IH _ (fun c Hc => Hcols c (or_intror Hc))) in Hk; [assumption |].
  clear k Hk. intros k Hk.
  destruct (Qltb 3 (cell mx other_id course)) eqn:E3; cbn [andb] in Hk;
    [| now apply Hacc].
  destruct (Qeq_bool (cell mx sid course) 0) eqn:E0; [| now apply Hacc].
  rewrite dict_incr_keys in Hk.
  assert (Hnew : liked_unseen mx sid course).
  { split; [apply Hcols; now left |].
    split; [now apply Qeq_bool_iff |].
    exists other_id. repeat split; try assumption. now apply Qltb_true. }
  destruct (dict_get scores course); [now apply Hacc |].
  apply dict_set_key in Hk. destruct Hk as [-> | Hk];
    [assumption | now apply Hacc].
Qed.

Lemma collaborative_keys_candidates (mx : Matrix) (sid : string) (limit : Z)
    (k : string) :
  In k (map fst (_get_collaborative_recommendations cosine_similarity mx sid limit)) ->
  liked_unseen mx sid k.
Proof.
  unfold _get_collaborative_recommendations.
  destruct (negb (mem sid (index mx))); [intros [] |].
  intros Hk. apply in_map_iff in Hk. destruct Hk as (p & <- & Hp).
  apply ranked_In in Hp.
  assert (Hn : forall n,
             In n (take 10 (sorted_desc
                              (student_similarities cosine_similarity mx sid))) ->
             In (fst n) (index mx) /\ fst n <> sid).
  { intros n Hn. apply ranked_In in Hn. now apply student_similarities_keys. }
  assert (H0 : forall k0, In k0 (map fst (@nil (string * Q))) ->
                          liked_unseen mx sid k0) by (intros k0 []).
  revert Hp H0 Hn. generalize (@nil (string * Q)) as acc.
  induction (take 10 _) as [| n t IH]; intros acc Hp Hacc Hn;
    cbn [fold_left] in Hp.
  - apply Hacc. now apply in_map.
  - apply (IH _ Hp).
    + destruct (Hn n (or_introl eq_refl)) as (Hi & Hne).
      now apply add_neighbour_candidates.
    + intros n' Hn'. apply Hn. now right.
Qed.

(** X6: every collaborative candidate is a course the student has no
    interaction with and that another student of the matrix rated above 3;
    the candidates are distinct and their scores never increase along the
    list. *)
Theorem collaborative_candidates_unseen_and_liked (mx : Matrix) (sid : string)
    (limit : Z) :
  let recs := _get_collaborative_recommendations cosine_similarity mx sid limit in
  (forall course, In course (map fst recs) -> liked_unseen mx sid course) /\
  NoDup (map fst recs) /\
  descending recs.
Proof.
  intros recs. split; [| split].
  - intros course. apply collaborative_keys_candidates.
  - subst recs. unfold _get_collaborative_recommendations.
    destruct (negb _); [constructor |].
    apply ranked_keys_NoDup.
    assert (H0 : NoDup (map fst (@nil (string * Q)))) by constructor.
    revert H0. generalize (@nil (string * Q)) as acc.
    induction (take 10 _) as [| n t IH]; intros acc Hacc; cbn [fold_left];
      [assumption |].
    apply IH. now apply add_neighbour_NoDup.
  - subst recs. unfold _get_collaborative_recommendations.
    destruct (negb _); [constructor | apply ranked_descending].
Qed.

Lemma filtered_courses_raises (courses : list Course) (taken : list string)
    (difficulty_filter : option string) (year : Z) (recs : list (string * Q))
    (cid : string) :
  In cid (map fst recs) -> ~ In cid (map course_id courses) ->
  filtered_courses courses taken difficulty_filter year recs = Raise IndexError.
Proof.
  intros Hin Hno. induction recs as [| (k, score) rest IH]; [contradiction |].
  cbn [filtered_courses].
  destruct Hin as [Hk | Hrest].
  - cbn [fst] in Hk. subst k.
    now rewrite (first_row_missing course_id cid courses Hno).
  - rewrite (IH Hrest).
    destruct (first_row course_id k courses) as [c |] eqn:Ec.
    + reflexivity.
    + unfold first_row in Ec. destruct (find _ courses); [discriminate |].
      injection Ec as <-. reflexivity.
Qed.

(** X7: a collaborative candidate that the course table does not hold makes
    the call fail: when a course of the history, absent from the course
    table, becomes a candidate (and is not excluded as taken),
    [recommend_courses] raises IndexError at the lookup of that course. *)
Theorem candidate_outside_course_table_raises (m : Model) (sid : string)
    (limit : Z) (exclude_taken : bool) (difficulty_filter : option string)
    (sim : list (list Q)) (student : Student) (content : list (string * Q))
    (cid : string) :
  course_similarity_matrix m = Some sim ->
  first_row student_id sid (students_df m) = Ok student ->
  _get_content_based_recommendations (courses_df m) (course_history_df m)
    (query_similarity m) sim sid (topic_interests student)
    (s_department student) (limit * 2) = Ok content ->
  In cid (map fst (collaborative_recs cosine_similarity m sid limit)) ->
  mem cid (taken_courses m sid exclude_taken) = false ->
  ~ In cid (map course_id (courses_df m)) ->
  recommend_courses cosine_similarity m sid limit exclude_taken difficulty_filter
  = Raise IndexError.
Proof.
  intros Hsim Hst Hcontent Hcand Htaken Hmissing.
  set (taken := taken_courses m sid exclude_taken) in *.
  set (collab := collaborative_recs cosine_similarity m sid limit) in *.
  assert (Hkey : In cid (map fst (all_recs taken content collab))).
  { destruct (dict_get collab cid) as [b |] eqn:Eb;
      [| now apply dict_get_None in Eb].
    pose proof (merge_collaborative_get taken collab
                  (collaborative_keys_NoDup cosine_similarity m sid limit)
                  (merge_content taken content) cid) as Hget.
    fold collab in Hget. rewrite Htaken, Eb in Hget.
    apply dict_get_In in Hget.
    unfold all_recs. eapply (in_map fst) in Hget. exact Hget. }
  unfold recommend_courses, top_courses. rewrite Hsim, Hst. cbn [bind].
  rewrite Hcontent. cbn [bind]. fold taken collab.
  now rewrite (filtered_courses_raises _ _ _ _ _ cid Hkey Hmissing).
Qed.

End CandidateFacts.

Lemma collaborative_candidates_unseen_and_liked_witness :
  In "COURSE1001"
     (map fst (_get_collaborative_recommendations Demo.cosine
                 (student_course_matrix Demo.model) "S1000" 10)) /\
  liked_unseen (student_course_matrix Demo.model) "S1000" "COURSE1001".
Proof.
  assert (H : In "COURSE1001"
                 (map fst (_get_collaborative_recommendations Demo.cosine
                             (student_course_matrix Demo.model) "S1000" 10)))
    by (vm_compute; left; reflexivity).
  split; [exact H |].
  exact (proj1 (collaborative_candidates_unseen_and_liked Demo.cosine
                  (student_course_matrix Demo.model) "S1000" 10) _ H).
Defined.

Lemma candidate_outside_course_table_raises_witness :
  In "COURSE2000"
     (map fst (collaborative_recs Demo.cosine Cases.orphan_model "S1000" 5)) /\
  ~ In "COURSE2000" (map course_id (courses_df Cases.orphan_model)) /\
  recommend_courses Demo.cosine Cases.orphan_model "S1000" 5 true None
  = Raise IndexError.
Proof.
  assert (Hc : In "COURSE2000"
                  (map fst (collaborative_recs Demo.cosine Cases.orphan_model
                              "S1000" 5)))
    by (vm_compute; tauto).
  assert (Hm : ~ In "COURSE2000" (map course_id (courses_df Cases.orphan_model)))
    by (simpl; intuition discriminate).
  split; [exact Hc |]. split; [exact Hm |].
  destruct (first_row student_id "S1000" (students_df Cases.orphan_model))
    as [st |] eqn:Est; [| vm_compute in Est; discriminate].
  destruct (_get_content_based_recommendations (courses_df Cases.orphan_model)
              (course_history_df Cases.orphan_model)
              (query_similarity Cases.orphan_model)
              (Demo.fit_course_similarity (map content_text Demo.course_rows))
              "S1000" (topic_interests st) (s_department st) (5 * 2))
    as [content |] eqn:Ec;
    [| vm_compute in Est; injection Est as <-; vm_compute in Ec; discriminate].
  exact (candidate_outside_course_table_raises Demo.cosine Cases.orphan_model
           "S1000" 5 true None _ st content "COURSE2000" eq_refl Est Ec Hc
           eq_refl Hm).
Defined.

(** ** Calls that cannot fail *)

Lemma add_halved_ok (scores row : list Q) :
  List.length row = List.length scores ->
  exists out, add_halved scores row = Ok out /\
              List.length out = List.length scores.
Proof.
  revert row. induction scores as [| s t IH]; intros [| x row'] Hlen;
    try discriminate.
  - now exists [].
  - injection Hlen as Hlen. destruct (IH row' Hlen) as (rest & E & Hr).
    cbn [add_halved]. rewrite E. cbn [bind].
    eexists. split; [reflexivity | simpl; now rewrite Hr].
Qed.

Lemma iadd_halved_ok (scores row : list Q) :
  List.length row = List.length scores ->
  exists out, iadd_halved scores row = Ok out /\
              List.length out = List.length scores.
Proof.
  intros Hlen. unfold iadd_halved.
  destruct row as [| x [| y row']]; try now apply add_halved_ok.
  eexists. split; [reflexivity | apply length_map].
Qed.

Lemma course_index_lt (courses : list Course) (cid : string) (i : nat) :
  course_index courses cid = Some i -> (i < List.length courses)%nat.
Proof.
  revert i. induction courses as [| c t IH]; intros i H; [discriminate |].
  cbn [course_index] in H. destruct (String.eqb (course_id c) cid).
  - injection H as <-. simpl. lia.
  - destruct (course_index t cid) as [j |]; [| discriminate].
    injection H as <-. specialize (IH j eq_refl). simpl. lia.
Qed.

Lemma add_taken_similarities_ok (courses : list Course) (sim : list (list Q))
    (taken : list string) :
  List.length sim = List.length courses ->
  Forall (fun row => List.length row = List.length courses) sim ->
  forall scores,
    List.length scores = List.length courses ->
    exists out, add_taken_similarities courses sim taken scores = Ok out /\
                List.length out = List.length courses.
Proof.
  intros Hsim Hrows. induction taken as [| cid rest IH]; intros scores Hlen.
  - now exists scores.
  - cbn [add_taken_similarities].
    destruct (course_index courses cid) as [i |] eqn:Ei; [| now apply IH].
    apply course_index_lt in Ei.
    destruct (nth_error sim i) as [row |] eqn:Erow.
    + assert (Hrow : List.length row = List.length scores).
      { rewrite Forall_forall in Hrows. rewrite Hlen. apply Hrows.
        now apply nth_error_In in Erow. }
      destruct (iadd_halved_ok scores row Hrow) as (scores' & E & Hl).
      rewrite E. cbn [bind]. apply IH. now rewrite Hl.
    + apply nth_error_None in Erow. lia.
Qed.

Lemma trained_course_ids (csv_has_avg_rating : bool) (rows : list CourseRow)
    (history : list HistoryRecord) :
  map course_id (_calculate_course_popularity csv_has_avg_rating rows history)
  = map row_course_id rows.
Proof.
  unfold _calculate_course_popularity. rewrite map_map. reflexivity.
Qed.

Section TotalCalls.

Variable cosine_similarity : list Q -> list Q -> Q.
Variable fit_query_similarity : list string -> string -> list Q.
Variable fit_course_similarity : list string -> list (list Q).

(** X8: after training on tables that agree with each other (a content index
    with one entry per course, and a history that only mentions courses of
    the course table), [recommend_courses] returns a list for every student
    of the students table: no argument makes it raise. *)
Theorem known_student_gets_recommendations (csv_has_avg_rating : bool)
    (rows : list CourseRow) (students : list Student)
    (history : list HistoryRecord) (sid : string) (limit : Z)
    (exclude_taken : bool) (difficulty_filter : option string) :
  let corpus := map content_text rows in
  (forall q, List.length (fit_query_similarity corpus q) = List.length rows) ->
  List.length (fit_course_similarity corpus) = List.length rows ->
  Forall (fun row => List.length row = List.length rows)
         (fit_course_similarity corpus) ->
  (forall r, In r history -> In (h_course_id r) (map row_course_id rows)) ->
  In sid (map student_id students) ->
  exists recs,
    recommend_courses cosine_similarity
      (train fit_query_similarity fit_course_similarity csv_has_avg_rating
         rows students history)
      sid limit exclude_taken difficulty_filter = Ok recs.
Proof.
  intros corpus Hq Hsim Hrows Hhist Hin.
  set (m := train fit_query_similarity fit_course_similarity csv_has_avg_rating
              rows students history).
  assert (Hn : List.length (courses_df m) = List.length rows).
  { cbn [courses_df m train]. unfold _calculate_course_popularity.
    apply length_map. }
  assert (Hids : map course_id (courses_df m) = map row_course_id rows)
    by apply trained_course_ids.
  apply in_map_iff in Hin. destruct Hin as (st0 & <- & Hst0).
  destruct (first_row_found student_id students st0 Hst0) as (st & Est).
  destruct (add_taken_similarities_ok (courses_df m)
              (fit_course_similarity corpus)
              (student_courses history (student_id st0)))
    with (scores := query_similarity m
                      (query_text (topic_interests st) (s_department st)))
    as (scores & Es & Hls).
  { now rewrite Hn. }
  { now rewrite Hn. }
  { rewrite Hn. apply Hq. }
  destruct (course_scores_ok (courses_df m) scores) as (pairs & Ep); [lia |].
  set (content := take (limit * 2) (sorted_desc pairs)).
  assert (Ec : _get_content_based_recommendations (courses_df m) history
                 (query_similarity m) (fit_course_similarity corpus)
                 (student_id st0) (topic_interests st) (s_department st)
                 (limit * 2) = Ok content).
  { unfold _get_content_based_recommendations. rewrite Es. cbn [bind].
    rewrite Ep. reflexivity. }
  set (taken := taken_courses m (student_id st0) exclude_taken).
  set (collab := collaborative_recs cosine_similarity m (student_id st0) limit).
  assert (Hkeys : forall k, In k (map fst (all_recs taken content collab)) ->
                            In k (map course_id (courses_df m))).
  { intros k Hk. apply all_recs_keys in Hk. destruct Hk as [Hk | Hk].
    - destruct (content_keys _ _ _ _ _ _ _ _ _ Ec) as (pairs' & Hk' & Hc).
      rewrite <- Hk'. rewrite Hc in Hk. apply in_map_iff in Hk.
      destruct Hk as (p & <- & Hp). apply in_map. now apply ranked_In in Hp.
    - rewrite Hids. subst collab. unfold collaborative_recs in Hk.
      destruct (mem _ _ && _); [| contradiction].
      apply collaborative_keys_candidates in Hk. destruct Hk as (Hcol & _).
      cbn [student_course_matrix m train columns
             _create_student_course_matrix] in Hcol.
      apply sort_ids_In, unique_In, in_map_iff in Hcol.
      destruct Hcol as (r & <- & Hr). now apply Hhist. }
  destruct (filtered_courses_ok (courses_df m) taken difficulty_filter
              (year_of_study st) (all_recs taken content collab) Hkeys)
    as (filtered & Ef).
  destruct (format_results_ok (courses_df m) (take limit (sorted_desc filtered)))
    as (recs & Er).
  { intros k Hk. apply in_map_iff in Hk. destruct Hk as (p & <- & Hp).
    apply ranked_In in Hp. apply Hkeys.
    apply (filtered_courses_keys _ _ _ _ _ _ Ef). now apply in_map. }
  exists recs. unfold recommend_courses, top_courses.
  cbn [course_similarity_matrix students_df course_history_df m train].
  rewrite Est. cbn [bind].
  change (_calculate_course_popularity csv_has_avg_rating rows history)
    with (courses_df m).
  change (fit_query_similarity (map content_text rows)) with (query_similarity m).
  fold corpus. rewrite Ec. cbn [bind].
  fold taken collab. rewrite Ef. cbn [bind]. exact Er.
Qed.

End TotalCalls.

Lemma known_student_gets_recommendations_witness :
  In "S1001" (map student_id Demo.students) /\
  exists recs,
    recommend_courses Demo.cosine Demo.model "S1001" 5 false (Some "advanced")
    = Ok recs.
Proof.
  assert (Hin : In "S1001" (map student_id Demo.students)) by (simpl; tauto).
  split; [exact Hin |].
  apply (known_student_gets_recommendations Demo.cosine
           Demo.fit_query_similarity Demo.fit_course_similarity false
           Demo.course_rows Demo.students Demo.history "S1001" 5 false
           (Some "advanced")).
  - intros q. unfold Demo.fit_query_similarity.
    destruct (String.eqb q _); reflexivity.
  - reflexivity.
  - repeat constructor.
  - intros r Hr. simpl in Hr.
    repeat (destruct Hr as [<- | Hr]; [simpl; tauto |]). contradiction.
  - exact Hin.
Defined.

(** ** Shape and range of the interaction matrix *)

Lemma insert_sorted_hd (a x : string) (l : list string) :
  HdRel (fun s t => String.leb s t = true) a l -> String.leb a x = true ->
  HdRel (fun s t => String.leb s t = true) a (insert_sorted x l).
Proof.
  intros Hl Hx. destruct l as [| y t]; simpl; [now constructor |].
  destruct (String.leb x y); constructor; [assumption |].
  now inversion Hl.
Qed.

Lemma insert_sorted_Sorted (x : string) (l : list string) :
  Sorted (fun s t => String.leb s t = true) l ->
  Sorted (fun s t => String.leb s t = true) (insert_sorted x l).
Proof.
  induction 1 as [| y t Ht IH Hy]; simpl; [repeat constructor |].
  destruct (String.leb x y) eqn:E.
  - constructor; [now constructor | now constructor].
  - constructor; [assumption |].
    apply insert_sorted_hd; [assumption |].
    destruct (String.leb_total x y) as [H | H]; [congruence | assumption].
Qed.

Lemma sort_ids_Sorted (l : list string) :
  Sorted (fun s t => String.leb s t = true) (sort_ids l).
Proof.
  induction l as [| x t IH]; simpl; [constructor |].
  now apply insert_sorted_Sorted.
Qed.

Lemma sort_ids_NoDup (l : list string) : NoDup l -> NoDup (sort_ids l).
Proof.
  apply Permutation_NoDup. symmetry. apply sort_ids_perm.
Qed.

(** X9: the rows of the student x course matrix are exactly the students with
    a history record and its columns exactly the courses with one; both
    label lists are duplicate free and in ascending order, and a pair of
    student and course without a record has the cell 0. *)
Theorem matrix_labels_and_fill (history : list HistoryRecord) :
  let m := _create_student_course_matrix history in
  (forall sid, In sid (index m) <->
               exists r, In r history /\ h_student_id r = sid) /\
  (forall cid, In cid (columns m) <->
               exists r, In r history /\ h_course_id r = cid) /\
  NoDup (index m) /\ NoDup (columns m) /\
  Sorted (fun s t => String.leb s t = true) (index m) /\
  Sorted (fun s t => String.leb s t = true) (columns m) /\
  (forall sid cid,
     (forall r, In r history -> h_student_id r = sid -> h_course_id r <> cid) ->
     cell m sid cid = 0).
Proof.
  intros m. subst m. cbn [index columns cell _create_student_course_matrix].
  split; [| split].
  - intros sid. rewrite sort_ids_In, unique_In, in_map_iff.
    split; intros (r & H1 & H2); exists r; tauto.
  - intros cid. rewrite sort_ids_In, unique_In, in_map_iff.
    split; intros (r & H1 & H2); exists r; tauto.
  - repeat split; try (apply sort_ids_NoDup, unique_NoDup);
      try apply sort_ids_Sorted.
    intros sid cid Hno. unfold pivot_cell.
    destruct (cell_records history sid cid) as [| r rs] eqn:E; [reflexivity |].
    assert (Hr : In r (cell_records history sid cid)) by (rewrite E; now left).
    apply cell_records_In in Hr. destruct Hr as (Hin & Hs & Hc).
    exfalso. now apply (Hno r Hin Hs).
Qed.

Lemma Qsum_bounds (a b : Q) (l : list Q) :
  Forall (fun x => a <= x <= b) l ->
  a * inject_Z (Z.of_nat (List.length l)) <= Qsum l
  <= b * inject_Z (Z.of_nat (List.length l)).
Proof.
  induction 1 as [| x t Hx Ht IH].
  - change (inject_Z (Z.of_nat (List.length (@nil Q)))) with 0.
    change (Qsum []) with 0. split; lra.
  - rewrite Qsum_cons.
    replace (List.length (x :: t)) with (S (List.length t)) by reflexivity.
    rewrite Nat2Z.inj_succ. unfold Z.succ. rewrite inject_Z_plus.
    change (inject_Z 1) with 1. split; lra.
Qed.

Lemma mean_bounds (a b : Q) (l : list Q) :
  l <> [] -> Forall (fun x => a <= x <= b) l -> a <= mean l <= b.
Proof.
  intros Hne H. pose proof (Qsum_bounds a b l H) as (Hlo & Hhi).
  assert (Hn : 0 < inject_Z (Z.of_nat (List.length l))).
  { destruct l as [| x t]; [congruence |]. unfold Qlt. simpl. lia. }
  unfold mean. split.
  - apply Qle_shift_div_l; assumption.
  - apply Qle_shift_div_r; assumption.
Qed.

(** X10: with grade values between 0 and 4 and ratings between 1 and 5, every
    cell of the student x course matrix lies between 0 and 5. *)
Theorem interaction_cells_bounded (history : list HistoryRecord) :
  (forall r, In r history ->
     0 <= grade_value r <= 4 /\
     forall x, student_rating r = Some x -> 1 <= x <= 5) ->
  forall sid cid,
    0 <= cell (_create_student_course_matrix history) sid cid <= 5.
Proof.
  intros Hvalid sid cid. cbn [cell _create_student_course_matrix].
  unfold pivot_cell.
  destruct (cell_records history sid cid) as [| r rs] eqn:E; [split; lra |].
  apply mean_bounds; [discriminate |].
  rewrite <- E. apply Forall_map. apply Forall_forall. intros r' Hr'.
  apply cell_records_In in Hr'. destruct Hr' as (Hin & _).
  destruct (Hvalid r' Hin) as (Hg & Hrate).
  unfold interaction_value.
  destruct (student_rating r') as [x |].
  - specialize (Hrate x eq_refl). lra.
  - apply implied_rating_range. exact Hg.
Qed.

Lemma demo_history_valid (r : HistoryRecord) :
  In r Demo.history ->
  0 <= grade_value r <= 4 /\
  forall x, student_rating r = Some x -> 1 <= x <= 5.
Proof.
  intros Hr. simpl in Hr.
  repeat (destruct Hr as [<- | Hr];
          [split; [split; discriminate |];
           intros x Hx; simpl in Hx; try discriminate;
           injection Hx as <-; split; discriminate |]).
  contradiction.
Qed.

Lemma interaction_cells_bounded_witness :
  (forall r, In r Demo.history ->
     0 <= grade_value r <= 4 /\
     forall x, student_rating r = Some x -> 1 <= x <= 5) /\
  0 <= cell (student_course_matrix Demo.model) "S1000" "COURSE1002" <= 5.
Proof.
  split; [exact demo_history_valid |].
  exact (interaction_cells_bounded Demo.history demo_history_valid
           "S1000" "COURSE1002").
Defined.

(** ** Range of the popularity score *)

Lemma Qmax_ge_l (x y : Q) : x <= Qmax x y.
Proof.
  unfold Qmax. destruct (Qltb x y) eqn:E; [| lra].
  apply Qltb_true in E. lra.
Qed.

Lemma enrollment_count_le_max (rows : list CourseRow)
    (history : list HistoryRecord) (r : CourseRow) :
  In r rows ->
  enrollment_count history (row_course_id r) <= enrollment_max rows history.
Proof.
  intros Hin. unfold enrollment_max.
  apply Qle_trans with
    (fold_right (fun r acc => Qmax (enrollment_count history (row_course_id r)) acc)
                0 rows); [| apply Qmax_ge_l].
  induction rows as [| r0 t IH]; [contradiction |].
  cbn [fold_right]. destruct Hin as [-> | Hin]; [apply Qmax_ge_l |].
  apply Qle_trans with
    (fold_right (fun r acc => Qmax (enrollment_count history (row_course_id r)) acc)
                0 t); [now apply IH | apply Qmax_ge_r].
Qed.

Lemma course_ratings_bounded (history : list HistoryRecord) (cid : string) :
  (forall r x, In r history -> student_rating r = Some x -> 0 <= x <= 5) ->
  Forall (fun x => 0 <= x <= 5) (course_ratings history cid).
Proof.
  intros H. induction history as [| r t IH]; [constructor |].
  assert (IH' : Forall (fun x => 0 <= x <= 5) (course_ratings t cid)).
  { apply IH. intros r' x Hr'. apply H. now right. }
  cbn [course_ratings].
  destruct (student_rating r) as [x |] eqn:E; [| assumption].
  destruct (String.eqb (h_course_id r) cid); [| assumption].
  constructor; [| assumption]. apply (H r x); [now left | assumption].
Qed.

(** X11: [_calculate_course_popularity] keeps the courses of the table in their
    order, and with ratings between 0 and 5 every popularity score lies
    between 0 and 1. *)
Theorem popularity_in_unit_interval (csv_has_avg_rating : bool)
    (rows : list CourseRow) (history : list HistoryRecord) :
  (forall r x, In r history -> student_rating r = Some x -> 0 <= x <= 5) ->
  let courses := _calculate_course_popularity csv_has_avg_rating rows history in
  map course_id courses = map row_course_id rows /\
  forall c, In c courses -> 0 <= popularity_score c <= 1.
Proof.
  intros Hr courses. split; [apply trained_course_ids |].
  intros c Hc. split.
  - apply (trained_popularity_nonneg csv_has_avg_rating rows history);
      [| assumption].
    intros r x Hin Hx. now apply (Hr r x Hin Hx).
  - subst courses. unfold _calculate_course_popularity in Hc.
    apply in_map_iff in Hc. destruct Hc as (r & <- & Hin).
    cbn [popularity_score].
    assert (Hmax : 1 <= enrollment_max rows history) by apply Qmax_ge_r.
    pose proof (enrollment_count_le_max rows history r Hin) as Hle.
    assert (Havg : or_zero (avg_rating_column csv_has_avg_rating history
                              (row_course_id r)) <= 5).
    { unfold avg_rating_column, merged_avg_rating.
      destruct csv_has_avg_rating; [discriminate |].
      pose proof (course_ratings_bounded history (row_course_id r) Hr) as Hb.
      destruct (course_ratings history (row_course_id r)) as [| x t];
        [discriminate |].
      cbn [fillna or_zero].
      apply (mean_bounds 0 5); [discriminate | exact Hb]. }
    assert (H1 : (7 # 10) * enrollment_count history (row_course_id r)
                 / enrollment_max rows history <= 7 # 10).
    { apply Qle_shift_div_r; [lra | nra]. }
    assert (H2 : (3 # 10) * or_zero (avg_rating_column csv_has_avg_rating
                                       history (row_course_id r)) / rating_max
                 <= 3 # 10).
    { apply Qle_shift_div_r; [reflexivity | unfold rating_max; nra]. }
    lra.
Qed.

Lemma popularity_in_unit_interval_witness :
  (forall r x, In r Demo.history -> student_rating r = Some x -> 0 <= x <= 5) /\
  forall c, In c (courses_df Demo.model) -> 0 <= popularity_score c <= 1.
Proof.
  assert (H : forall r x, In r Demo.history -> student_rating r = Some x ->
                          0 <= x <= 5).
  { intros r x Hin Hx. destruct (demo_history_valid r Hin) as (_ & Hrate).
    specialize (Hrate x Hx). lra. }
  split; [exact H |].
  exact (proj2 (popularity_in_unit_interval false Demo.course_rows Demo.history H)).
Defined.

(** ** The metrics of the evaluator *)

Lemma position_lt (x : string) (l : list string) (i : nat) :
  position x l = Some i -> (i < List.length l)%nat.
Proof.
  revert i. induction l as [| y t IH]; intros i H; [discriminate |].
  cbn [position] in H. destruct (String.eqb y x).
  - injection H as <-. simpl. lia.
  - destruct (position x t) as [j |]; [| discriminate].
    injection H as <-. specialize (IH j eq_refl). simpl. lia.
Qed.

Lemma Qsum_le_pointwise {A : Type} (f g : A -> Q) (l : list A) :
  (forall r, In r l -> f r <= g r) -> Qsum (map f l) <= Qsum (map g l).
Proof.
  induction l as [| r t IH]; intros H; [apply Qle_refl |].
  cbn [map]. rewrite !Qsum_cons.
  assert (f r <= g r) by (apply H; now left).
  assert (Qsum (map f t) <= Qsum (map g t))
    by (apply IH; intros r' Hr'; apply H; now right).
  lra.
Qed.

Lemma Qsum_zeros {A : Type} (l : list A) : Qsum (map (fun _ => 0) l) == 0.
Proof.
  induction l as [| r t IH]; [reflexivity |].
  cbn [map]. rewrite Qsum_cons, IH. ring.
Qed.

Lemma Qsum_ones {A : Type} (l : list A) :
  Qsum (map (fun _ => 1) l) == inject_Z (Z.of_nat (List.length l)).
Proof.
  induction l as [| r t IH]; [reflexivity |].
  cbn [map]. rewrite Qsum_cons, IH.
  replace (List.length (r :: t)) with (S (List.length t)) by reflexivity.
  rewrite Nat2Z.inj_succ. unfold Z.succ. rewrite inject_Z_plus.
  change (inject_Z 1) with 1. ring.
Qed.

Lemma reciprocal_rank_bounds (k : nat) :
  (1 <= k)%nat -> 0 <= 1 / count_of k <= 1.
Proof.
  intros Hk. unfold count_of.
  assert (Hpos : 1 <= inject_Z (Z.of_nat k)).
  { change 1 with (inject_Z 1). rewrite <- Zle_Qle. lia. }
  split.
  - apply Qle_shift_div_l; lra.
  - apply Qle_shift_div_r; lra.
Qed.

Lemma content_recommendations_length (courses : list Course)
    (history : list HistoryRecord) (qsim : string -> list Q)
    (sim : list (list Q)) (sid : string) (interests : list string)
    (dept : string) (limit : Z) (content : list (string * Q)) :
  (0 <= limit)%Z ->
  _get_content_based_recommendations courses history qsim sim sid interests
    dept limit = Ok content ->
  (List.length content <= Z.to_nat limit)%nat.
Proof.
  intros Hk H. apply content_keys in H. destruct H as (pairs & _ & ->).
  rewrite take_length by assumption. lia.
Qed.

Section MetricsFacts.

Variable random_choice : list string -> nat -> list string.
Variable set_to_list : list string -> list string.

Lemma evaluate_student_consistent (m : Model) (sim : list (list Q))
    (sid : string) (row : EvalRow) :
  evaluate_student set_to_list m sim sid = Ok row -> row_consistent row.
Proof.
  unfold evaluate_student.
  destruct (first_row student_id sid (students_df m)) as [info |];
    [| discriminate].
  cbn [bind].
  destruct (_get_content_based_recommendations _ _ _ _ _ _ _ _)
    as [recs |] eqn:Ec; [| discriminate].
  cbn [bind].
  destruct (position _ (map fst recs)) as [i |] eqn:Ep;
    intros H; injection H as <-; unfold row_consistent;
    cbn [er_rank er_hit er_precision_at_5 er_precision_at_10];
    [| repeat split].
  apply position_lt in Ep. rewrite length_map in Ep.
  pose proof (content_recommendations_length _ _ _ _ _ _ _ _ _
                (ltac:(lia) : (0 <= 20)%Z) Ec) as Hlen.
  change (Z.to_nat 20) with 20%nat in Hlen.
  repeat split; lia.
Qed.

Lemma results_consistent (m : Model) (sim : list (list Q)) (ids : list string) :
  forall rows, evaluate_results set_to_list m sim ids = Ok rows ->
    Forall row_consistent rows /\ (List.length rows <= List.length ids)%nat.
Proof.
  induction ids as [| sid rest IH]; intros rows H.
  - injection H as <-. split; [constructor | simpl; lia].
  - cbn [evaluate_results] in H.
    destruct (List.length (course_set (course_history_df m) sid) <? 2)%nat.
    + destruct (IH rows H) as (Hc & Hl). split; [assumption | simpl; lia].
    + destruct (evaluate_student set_to_list m sim sid) as [r |] eqn:Er;
        [| discriminate].
      cbn [bind] in H.
      destruct (evaluate_results set_to_list m sim rest) as [rs |];
        [| discriminate].
      cbn [bind] in H. injection H as <-.
      destruct (IH rs eq_refl) as (Hc & Hl).
      split; [| simpl; lia].
      constructor; [| assumption]. now apply evaluate_student_consistent in Er.
Qed.

Lemma row_values (r : EvalRow) :
  row_consistent r ->
  let hit := if er_hit r then 1 else 0 in
  let rr := match er_rank r with
            | Some k => 1 / count_of k
            | None => 0
            end in
  0 <= inject_Z (er_precision_at_5 r) /\
  inject_Z (er_precision_at_5 r) <= inject_Z (er_precision_at_10 r) /\
  inject_Z (er_precision_at_10 r) <= hit /\
  hit <= 1 /\ 0 <= rr /\ rr <= hit.
Proof.
  unfold row_consistent. destruct (er_rank r) as [k |].
  - intros (-> & Hk & -> & ->). cbv zeta.
    destruct (reciprocal_rank_bounds k (proj1 Hk)) as (H0 & H1).
    destruct (k <=? 5)%nat eqn:E5; destruct (k <=? 10)%nat eqn:E10;
      repeat split; try discriminate; try assumption.
    apply Nat.leb_le in E5. apply Nat.leb_gt in E10. lia.
  - intros (-> & -> & ->). cbv zeta. repeat split; discriminate.
Qed.

Lemma Qdiv_le_compat (a b n : Q) : 0 < n -> a <= b -> a / n <= b / n.
Proof.
  intros Hn Hab. unfold Qdiv. apply Qmult_le_compat_r; [assumption |].
  apply Qinv_le_0_compat. lra.
Qed.

(** X12: the metrics that [evaluate] returns are consistent with each other:
    0 <= precision_at_5 <= precision_at_10 <= hit_rate <= 1 and
    0 <= mrr <= hit_rate, over at least one and at most as many test
    students as were given. *)
Theorem evaluation_metrics_ordered (m : Model)
    (test_student_ids : option (list string))
    (hit_rate precision_at_5 precision_at_10 mrr : Q) (num_test_students : nat) :
  evaluate random_choice set_to_list m test_student_ids
  = Ok (EvalMetrics hit_rate precision_at_5 precision_at_10 mrr
          num_test_students) ->
  0 <= precision_at_5 /\ precision_at_5 <= precision_at_10 /\
  precision_at_10 <= hit_rate /\ hit_rate <= 1 /\
  0 <= mrr /\ mrr <= hit_rate /\
  (1 <= num_test_students
   <= List.length (test_students random_choice m test_student_ids))%nat.
Proof.
  unfold evaluate.
  destruct (course_similarity_matrix m) as [sim |]; [| discriminate].
  destruct (evaluate_results set_to_list m sim _) as [results |] eqn:E;
    [| discriminate].
  cbn [bind]. destruct (results_consistent _ _ _ _ E) as (Hc & Hlen).
  destruct results as [| r0 rs]; [discriminate |].
  set (results := r0 :: rs) in *.
  intros H. injection H as <- <- <- <- <-.
  assert (Hn : 0 < count_of (List.length results)).
  { unfold count_of, Qlt. simpl. lia. }
  rewrite Forall_forall in Hc.
  assert (Hrows : forall r, In r results ->
            0 <= inject_Z (er_precision_at_5 r) /\
            inject_Z (er_precision_at_5 r) <= inject_Z (er_precision_at_10 r) /\
            inject_Z (er_precision_at_10 r) <= (if er_hit r then 1 else 0) /\
            (if er_hit r then 1 else 0) <= 1 /\
            0 <= match er_rank r with
                 | Some k => 1 / count_of k
                 | None => 0
                 end /\
            match er_rank r with
            | Some k => 1 / count_of k
            | None => 0
            end <= (if er_hit r then 1 else 0)).
  { intros r Hr. exact (row_values r (Hc r Hr)). }
  assert (Hnonneg : forall f : EvalRow -> Q,
             (forall r, In r results -> 0 <= f r) ->
             0 <= Qsum (map f results) / count_of (List.length results)).
  { intros f Hf. apply Qle_shift_div_l; [assumption |].
    rewrite Qmult_0_l. apply Qsum_nonneg, Forall_map, Forall_forall.
    exact Hf. }
  assert (Hle : forall f g : EvalRow -> Q,
             (forall r, In r results -> f r <= g r) ->
             Qsum (map f results) / count_of (List.length results)
             <= Qsum (map g results) / count_of (List.length results)).
  { intros f g Hfg. apply Qdiv_le_compat; [assumption |].
    now apply Qsum_le_pointwise. }
  split; [apply Hnonneg; intros r Hr; apply (Hrows r Hr) |].
  split; [apply Hle; intros r Hr; apply (Hrows r Hr) |].
  split; [apply Hle; intros r Hr; apply (Hrows r Hr) |].
  split.
  { apply Qle_shift_div_r; [assumption |].
    rewrite Qmult_1_l.
    apply Qle_trans with (Qsum (map (fun _ : EvalRow => 1) results)).
    - apply (Qsum_le_pointwise (fun r : EvalRow => if er_hit r then 1 else 0)
               (fun _ => 1) results).
      intros r Hr. apply (Hrows r Hr).
    - unfold count_of. pose proof (Qsum_ones results) as Hones.
      rewrite Hones. apply Qle_refl. }
  split; [apply Hnonneg; intros r Hr; apply (Hrows r Hr) |].
  split; [apply Hle; intros r Hr; apply (Hrows r Hr) |].
  split; [simpl; lia | exact Hlen].
Qed.

(** X13: a test student who is evaluated (2 or more courses) but is missing from
    the students table makes [evaluate] raise instead of returning. *)
Theorem evaluate_unknown_test_student_raises (m : Model)
    (test_student_ids : option (list string)) (sim : list (list Q))
    (sid : string) :
  course_similarity_matrix m = Some sim ->
  In sid (test_students random_choice m test_student_ids) ->
  (2 <= List.length (course_set (course_history_df m) sid))%nat ->
  ~ In sid (map student_id (students_df m)) ->
  exists e, evaluate random_choice set_to_list m test_student_ids = Raise e.
Proof.
  intros Hsim Hin Hlen Hno. unfold evaluate. rewrite Hsim.
  assert (Hres : exists e,
             evaluate_results set_to_list m sim
               (test_students random_choice m test_student_ids) = Raise e).
  { induction (test_students random_choice m test_student_ids) as [| s rest IH];
      [contradiction |].
    cbn [evaluate_results].
    destruct Hin as [-> | Hin].
    - assert (E : (List.length (course_set (course_history_df m) sid) <? 2)%nat
                  = false) by (apply Nat.ltb_ge; assumption).
      rewrite E. unfold evaluate_student.
      rewrite (first_row_missing student_id sid (students_df m) Hno).
      cbn [bind]. now exists IndexError.
    - destruct (IH Hin) as (e & He). rewrite He.
      destruct (List.length (course_set (course_history_df m) s) <? 2)%nat;
        [now exists e |].
      destruct (evaluate_student set_to_list m sim s) as [row | e'];
        cbn [bind]; eexists; reflexivity. }
  destruct Hres as (e & ->). cbn [bind]. now exists e.
Qed.

End MetricsFacts.

Lemma evaluation_metrics_ordered_witness :
  evaluate (fun l n => firstn n l) (fun l => l) Demo.model
           (Some ["S1000"; "S1001"; "S1002"])
  = Ok (EvalMetrics (2 # 2) (2 # 2) (2 # 2) (5 # 12) 2) /\
  (5 # 12) <= (2 # 2) /\ (2 # 2) <= 1.
Proof.
  assert (H : evaluate (fun l n => firstn n l) (fun l => l) Demo.model
                       (Some ["S1000"; "S1001"; "S1002"])
              = Ok (EvalMetrics (2 # 2) (2 # 2) (2 # 2) (5 # 12) 2))
    by (vm_compute; reflexivity).
  split; [exact H |].
  destruct (evaluation_metrics_ordered (fun l n => firstn n l) (fun l => l)
              Demo.model (Some ["S1000"; "S1001"; "S1002"]) _ _ _ _ _ H)
    as (_ & _ & _ & H1 & _ & Hmrr & _).
  split; [exact Hmrr | exact H1].
Defined.

Lemma evaluate_unknown_test_student_raises_witness :
  (2 <= List.length (course_set (course_history_df Cases.shrunk_model) "S1001"))%nat /\
  ~ In "S1001" (map student_id (students_df Cases.shrunk_model)) /\
  exists e,
    evaluate (fun l n => firstn n l) (fun l => l) Cases.shrunk_model
             (Some ["S1000"; "S1001"]) = Raise e.
Proof.
  assert (Hlen : (2 <= List.length
                         (course_set (course_history_df Cases.shrunk_model)
                                     "S1001"))%nat)
    by (vm_compute; lia).
  assert (Hno : ~ In "S1001" (map student_id (students_df Cases.shrunk_model)))
    by (simpl; intuition discriminate).
  split; [exact Hlen |]. split; [exact Hno |].
  apply (evaluate_unknown_test_student_raises (fun l n => firstn n l)
           (fun l => l) Cases.shrunk_model (Some ["S1000"; "S1001"]) _ "S1001"
           eq_refl); [simpl; tauto | exact Hlen | exact Hno].
Defined.

(** ** Course difficulty scores *)

Lemma Qmin_le_l (x y : Q) : Qmin x y <= x.
Proof.
  unfold Qmin. destruct (Qltb y x) eqn:E; [| lra].
  apply Qltb_true in E. lra.
Qed.

Lemma Qmin_le_r (x y : Q) : Qmin x y <= y.
Proof.
  unfold Qmin. destruct (Qltb y x) eqn:E; [lra |].
  now apply Qltb_false in E.
Qed.

Lemma series_min_lower (l : list (option Q)) (a : Q) :
  series_min l = Some a -> forall v, In (Some v) l -> a <= v.
Proof.
  revert a. induction l as [| [x |] t IH]; intros a H v Hv;
    [contradiction | |].
  - cbn [series_min] in H. destruct (series_min t) as [y |] eqn:Et.
    + injection H as <-. destruct Hv as [E | Hv].
      * injection E as <-. apply Qmin_le_l.
      * pose proof (IH y eq_refl v Hv). pose proof (Qmin_le_r x y). lra.
    + injection H as <-. destruct Hv as [E | Hv].
      * injection E as <-. lra.
      * exfalso. clear IH. induction t as [| [z |] u IHu];
          [contradiction | |].
        -- cbn [series_min] in Et. destruct (series_min u); discriminate.
        -- destruct Hv as [E | Hv]; [discriminate | now apply IHu].
  - destruct Hv as [E | Hv]; [discriminate |]. now apply (IH a H v).
Qed.

Lemma series_max_upper (l : list (option Q)) (b : Q) :
  series_max l = Some b -> forall v, In (Some v) l -> v <= b.
Proof.
  revert b. induction l as [| [x |] t IH]; intros b H v Hv;
    [contradiction | |].
  - cbn [series_max] in H. destruct (series_max t) as [y |] eqn:Et.
    + injection H as <-. destruct Hv as [E | Hv].
      * injection E as <-. apply Qmax_ge_l.
      * pose proof (IH y eq_refl v Hv). pose proof (Qmax_ge_r x y). lra.
    + injection H as <-. destruct Hv as [E | Hv].
      * injection E as <-. lra.
      * exfalso. clear IH. induction t as [| [z |] u IHu];
          [contradiction | |].
        -- cbn [series_max] in Et. destruct (series_max u); discriminate.
        -- destruct Hv as [E | Hv]; [discriminate | now apply IHu].
  - destruct Hv as [E | Hv]; [discriminate |]. now apply (IH b H v).
Qed.

Lemma series_min_attained (l : list (option Q)) (a : Q) :
  series_min l = Some a -> In (Some a) l.
Proof.
  revert a. induction l as [| [x |] t IH]; intros a H; [discriminate | |].
  - cbn [series_min] in H. destruct (series_min t) as [y |].
    + injection H as <-. unfold Qmin.
      destruct (Qltb y x); [right; now apply IH | now left].
    + injection H as <-. now left.
  - right. now apply IH.
Qed.

Lemma series_max_attained (l : list (option Q)) (b : Q) :
  series_max l = Some b -> In (Some b) l.
Proof.
  revert b. induction l as [| [x |] t IH]; intros b H; [discriminate | |].
  - cbn [series_max] in H. destruct (series_max t) as [y |].
    + injection H as <-. unfold Qmax.
      destruct (Qltb x y); [right; now apply IH | now left].
    + injection H as <-. now left.
  - right. now apply IH.
Qed.

Lemma normalize_score_Some (lo hi score : option Q) (v : Q) :
  normalize_score lo hi score = Some v ->
  exists x a b,
    score = Some x /\ lo = Some a /\ hi = Some b /\
    ~ b - a == 0 /\ v = (x - a) / (b - a).
Proof.
  unfold normalize_score.
  destruct score as [x |]; [| discriminate].
  destruct lo as [a |]; [| discriminate].
  destruct hi as [b |]; [| discriminate].
  destruct (Qeq_bool (b - a) 0) eqn:E; [discriminate |].
  intros H. injection H as <-. exists x, a, b. repeat split.
  intros Hz. apply Qeq_bool_iff in Hz. congruence.
Qed.

(** X14: the difficulty scores are normalized: every score that is a number
    lies between 0 and 1, and unless all scores are NaN some course has the
    score 0 and some course the score 1.  The column has one entry per
    course. *)
Theorem difficulty_scores_normalized (rows : list CourseRow)
    (history : list HistoryRecord) :
  let scores := _calculate_course_difficulty rows history in
  List.length scores = List.length rows /\
  (forall v, In (Some v) scores -> 0 <= v <= 1) /\
  ((exists v, In (Some v) scores) ->
   (exists v0, In (Some v0) scores /\ v0 == 0) /\
   (exists v1, In (Some v1) scores /\ v1 == 1)).
Proof.
  intros scores. subst scores. unfold _calculate_course_difficulty.
  set (raw := map (raw_difficulty_score history) rows).
  split; [rewrite length_map; unfold raw; apply length_map |].
  assert (Hentry : forall v,
            In (Some v) (map (normalize_score (series_min raw) (series_max raw)) raw) ->
            exists x a b,
              In (Some x) raw /\ series_min raw = Some a /\
              series_max raw = Some b /\ a <= x <= b /\ a < b /\
              v = (x - a) / (b - a)).
  { intros v Hv. apply in_map_iff in Hv. destruct Hv as (s & Hs & Hin).
    apply normalize_score_Some in Hs.
    destruct Hs as (x & a & b & -> & Ha & Hb & Hne & ->).
    pose proof (series_min_lower raw a Ha x Hin) as Hlo.
    pose proof (series_max_upper raw b Hb x Hin) as Hhi.
    exists x, a, b. repeat split; try assumption.
    destruct (Qlt_le_dec a b) as [Hlt | Hle]; [assumption |].
    exfalso. apply Hne. lra. }
  split.
  - intros v Hv. destruct (Hentry v Hv) as (x & a & b & _ & _ & _ & Hx & Hab & ->).
    split.
    + apply Qle_shift_div_l; lra.
    + apply Qle_shift_div_r; lra.
  - intros (v & Hv).
    destruct (Hentry v Hv) as (x & a & b & _ & Ha & Hb & _ & Hab & _).
    assert (Hne : Qeq_bool (b - a) 0 = false).
    { destruct (Qeq_bool (b - a) 0) eqn:E; [| reflexivity].
      apply Qeq_bool_iff in E. lra. }
    split.
    + exists ((a - a) / (b - a)). split.
      * apply in_map_iff. exists (Some a).
        split; [| now apply series_min_attained].
        rewrite Ha, Hb. cbn [normalize_score]. now rewrite Hne.
      * field. lra.
    + exists ((b - a) / (b - a)). split.
      * apply in_map_iff. exists (Some b).
        split; [| now apply series_max_attained].
        rewrite Ha, Hb. cbn [normalize_score]. now rewrite Hne.
      * field. lra.
Qed.

(** X15: without a spread there is no score: when the raw difficulty scores of
    all courses coincide, every normalized difficulty score is NaN (0/0);
    this is the case of a table with a single course. *)
Theorem difficulty_scores_degenerate (rows : list CourseRow)
    (history : list HistoryRecord) :
  (forall r1 r2 v1 v2,
     In r1 rows -> In r2 rows ->
     raw_difficulty_score history r1 = Some v1 ->
     raw_difficulty_score history r2 = Some v2 -> v1 == v2) ->
  Forall (fun score => score = None) (_calculate_course_difficulty rows history).
Proof.
  intros Hsame. unfold _calculate_course_difficulty.
  set (raw := map (raw_difficulty_score history) rows).
  apply Forall_forall. intros s Hs.
  destruct s as [v |]; [| reflexivity]. exfalso.
  apply in_map_iff in Hs. destruct Hs as (s0 & Hs0 & _).
  apply normalize_score_Some in Hs0.
  destruct Hs0 as (x & a & b & _ & Ha & Hb & Hne & _).
  apply series_min_attained in Ha. apply series_max_attained in Hb.
  apply in_map_iff in Ha. destruct Ha as (r1 & Hr1 & Hin1).
  apply in_map_iff in Hb. destruct Hb as (r2 & Hr2 & Hin2).
  pose proof (Hsame r1 r2 a b Hin1 Hin2 Hr1 Hr2) as Heq.
  apply Hne. lra.
Qed.

Lemma difficulty_scores_degenerate_witness :
  (forall r1 r2 v1 v2,
     In r1 Cases.one_course -> In r2 Cases.one_course ->
     raw_difficulty_score Demo.history r1 = Some v1 ->
     raw_difficulty_score Demo.history r2 = Some v2 -> v1 == v2) /\
  _calculate_course_difficulty Cases.one_course Demo.history = [None].
Proof.
  assert (H : forall r1 r2 v1 v2,
             In r1 Cases.one_course -> In r2 Cases.one_course ->
             raw_difficulty_score Demo.history r1 = Some v1 ->
             raw_difficulty_score Demo.history r2 = Some v2 -> v1 == v2).
  { intros r1 r2 v1 v2 [<- | []] [<- | []] H1 H2.
    rewrite H1 in H2. injection H2 as <-. reflexivity. }
  split; [exact H |].
  pose proof (difficulty_scores_degenerate Cases.one_course Demo.history H) as Hf.
  destruct (_calculate_course_difficulty Cases.one_course Demo.history)
    as [| s [| s' t]] eqn:E; try (vm_compute in E; discriminate).
  inversion Hf as [| ? ? Hs _]; subst. reflexivity.
Defined.

Lemma difficulty_scores_normalized_witness :
  _calculate_course_difficulty Demo.course_rows Demo.history
  = [Some (0 # 128); Some (128 # 128); Some (0 # 128)] /\
  forall v, In (Some v)
               (_calculate_course_difficulty Demo.course_rows Demo.history) ->
            0 <= v <= 1.
Proof.
  split; [vm_compute; reflexivity |].
  exact (proj1 (proj2 (difficulty_scores_normalized Demo.course_rows
                         Demo.history))).
Defined.

(** ** Cold start and the floor of the match score *)

Section ColdStart.

Variable cosine_similarity : list Q -> list Q -> Q.

(** X16: a student who shares fewer than 2 courses (with interaction above 0 on
    both sides) with every other student has no neighbour, and the
    collaborative recommender returns no candidate. *)
Theorem no_neighbour_no_candidate (mx : Matrix) (sid : string) (limit : Z) :
  (forall other, In other (index mx) -> other <> sid ->
     (mask_sum (common_mask (loc mx sid) (loc mx other)) < 2)%nat) ->
  student_similarities cosine_similarity mx sid = [] /\
  _get_collaborative_recommendations cosine_similarity mx sid limit = [].
Proof.
  intros Hfew.
  assert (Hsim : student_similarities cosine_similarity mx sid = []).
  { unfold student_similarities.
    induction (index mx) as [| o t IH]; [reflexivity |].
    cbn [flat_map]. rewrite IH by (intros other Hin; apply Hfew; now right).
    rewrite app_nil_r.
    destruct (String.eqb o sid) eqn:E; [reflexivity |].
    apply String.eqb_neq in E.
    assert (Hlt : (2 <=? mask_sum (common_mask (loc mx sid) (loc mx o)))%nat
                  = false).
    { apply Nat.leb_gt. apply Hfew; [now left | assumption]. }
    now rewrite Hlt. }
  split; [assumption |].
  unfold _get_collaborative_recommendations.
  destruct (negb (mem sid (index mx))); [reflexivity |].
  rewrite Hsim. cbn [sorted_desc fold_right]. rewrite take_nil.
  cbn [fold_left sorted_desc fold_right]. apply take_nil.
Qed.

(** The cosine of two vectors with positive entries is not negative. *)
Hypothesis cosine_nonneg :
  forall u v, Forall (fun x => 0 < x) u -> Forall (fun x => 0 < x) v ->
              0 <= cosine_similarity u v.

Lemma collaborative_recs_nonneg (m : Model) (sid : string) (limit : Z) :
  Forall (fun p => 0 <= snd p) (collaborative_recs cosine_similarity m sid limit).
Proof.
  unfold collaborative_recs.
  destruct (mem sid (index (student_course_matrix m)) && _); [| constructor].
  unfold _get_collaborative_recommendations.
  destruct (negb _); [constructor |].
  apply ranked_Forall.
  assert (Hn : Forall (fun p : string * Q => 0 <= snd p)
                 (take 10 (sorted_desc
                    (student_similarities cosine_similarity
                       (student_course_matrix m) sid)))).
  { apply ranked_Forall. unfold student_similarities.
    induction (index (student_course_matrix m)) as [| o t IH]; [constructor |].
    cbn [flat_map]. apply Forall_app. split; [| assumption].
    destruct (String.eqb o sid); [constructor |].
    destruct (2 <=? _)%nat; [| constructor].
    repeat constructor. cbn [snd].
    apply cosine_nonneg; apply masked_positive. }
  assert (H0 : Forall (fun p : string * Q => 0 <= snd p) []) by constructor.
  revert H0. generalize (@nil (string * Q)) as acc.
  induction Hn as [| n t Hn0 Ht IH]; intros acc Hacc; cbn [fold_left];
    [assumption |].
  apply IH. destruct n as (other_id, similarity). cbn [snd] in Hn0.
  unfold add_neighbour.
  revert acc Hacc. induction (columns (student_course_matrix m)) as [| c cs IHc];
    intros acc Hacc; cbn [fold_left]; [assumption |].
  apply IHc.
  destruct (Qltb 3 (cell (student_course_matrix m) other_id c)) eqn:E3;
    cbn [andb]; [| assumption].
  destruct (Qeq_bool (cell (student_course_matrix m) sid c) 0); [| assumption].
  apply Qltb_true in E3.
  apply dict_incr_nonneg.
  - destruct (dict_get acc c); [assumption |].
    apply dict_set_nonneg; [assumption | lra].
  - apply Qmult_le_0_compat; [assumption |].
    apply Qle_shift_div_l; lra.
Qed.

(** X17: on a model whose content similarities and popularity scores are not
    negative, no returned match score is below 20: the level term alone
    contributes 0.2 to the final score. *)
Theorem match_score_at_least_20 (m : Model) (sid : string) (limit : Z)
    (exclude_taken : bool) (difficulty_filter : option string)
    (recs : list Recommendation) :
  (forall q, Forall (fun x => 0 <= x) (query_similarity m q)) ->
  (forall sim, course_similarity_matrix m = Some sim ->
               Forall (Forall (fun x => 0 <= x)) sim) ->
  (forall c, In c (courses_df m) -> 0 <= popularity_score c) ->
  recommend_courses cosine_similarity m sid limit exclude_taken difficulty_filter
  = Ok recs ->
  forall rec, In rec recs -> (20 <= matchScore rec)%Z.
Proof.
  intros Hq Hsim Hpop H rec Hin.
  destruct (returned_course cosine_similarity _ _ _ _ _ _ H)
    as (sim & st & content & top & Es & _ & Hcontent & _ & Hall).
  destruct (Hall rec Hin) as (c & score & Hrow & Hmerged & _ & _ & _ & Hrec).
  assert (Hscore : 0 <= score).
  { pose proof (all_recs_nonneg (taken_courses m sid exclude_taken) content
                  (collaborative_recs cosine_similarity m sid limit)
                  (content_scores_nonneg _ _ _ _ _ _ _ _ _ Hq (Hsim _ Es) Hcontent)
                  (collaborative_recs_nonneg m sid limit)) as Hnn.
    rewrite Forall_forall in Hnn. apply (Hnn _ Hmerged). }
  apply first_row_In in Hrow. destruct Hrow as (Hc & _).
  pose proof (final_score_nonneg c (year_of_study st) score Hscore (Hpop c Hc))
    as Hfinal.
  rewrite Hrec. cbn [matchScore course_info]. unfold match_score.
  assert (H20 : (20 <= round (final_score c (year_of_study st) score * 100))%Z).
  { assert (Hle : 20 <= final_score c (year_of_study st) score * 100) by lra.
    apply Qfloor_resp_le in Hle. change (Qfloor 20) with 20%Z in Hle.
    pose proof (round_floor (final_score c (year_of_study st) score * 100)).
    lia. }
  lia.
Qed.

End ColdStart.

Lemma no_neighbour_no_candidate_witness :
  (forall other,
     In other (index (student_course_matrix Demo.single_course_model)) ->
     other <> "S1000" ->
     (mask_sum (common_mask
                  (loc (student_course_matrix Demo.single_course_model) "S1000")
                  (loc (student_course_matrix Demo.single_course_model) other))
      < 2)%nat) /\
  _get_collaborative_recommendations Demo.cosine
    (student_course_matrix Demo.single_course_model) "S1000" 10 = [].
Proof.
  assert (H : forall other,
             In other (index (student_course_matrix Demo.single_course_model)) ->
             other <> "S1000" ->
             (mask_sum (common_mask
                          (loc (student_course_matrix Demo.single_course_model)
                               "S1000")
                          (loc (student_course_matrix Demo.single_course_model)
                               other)) < 2)%nat).
  { intros other Hin _. vm_compute in Hin.
    repeat (destruct Hin as [<- | Hin]; [vm_compute; lia |]). contradiction. }
  split; [exact H |].
  exact (proj2 (no_neighbour_no_candidate Demo.cosine
                  (student_course_matrix Demo.single_course_model) "S1000" 10 H)).
Defined.

Lemma match_score_at_least_20_witness :
  exists recs,
    recommend_courses Demo.cosine Demo.model "S1000" 5 true None = Ok recs /\
    recs <> [] /\
    forall rec, In rec recs -> (20 <= matchScore rec)%Z.
Proof.
  destruct (recommend_courses Demo.cosine Demo.model "S1000" 5 true None)
    as [recs |] eqn:E; [| vm_compute in E; discriminate].
  exists recs. split; [reflexivity |]. split.
  - vm_compute in E. injection E as <-. discriminate.
  - exact (match_score_at_least_20 Demo.cosine demo_cosine_nonneg Demo.model
             "S1000" 5 true None recs demo_query_nonneg demo_similarity_nonneg
             demo_popularity_nonneg E).
Defined.

(** ** The range of the match score *)


Section MatchScoreRange.

Variable cosine_similarity : list Q -> list Q -> Q.
Variable fit_query_similarity : list string -> string -> list Q.
Variable fit_course_similarity : list string -> list (list Q).


End MatchScoreRange.

